(** * Smart Content Aggregator: summarisation and recommendation core

    A shallow embedding of the TypeScript services of the repository
    (summary service, recommendation service, Interaction model statics and
    the recommendation controller) together with the properties of its
    specification.

    Modelling conventions.
    - A JavaScript string is a [string] of 8-bit characters (code units below
      256, i.e. ASCII plus Latin-1); [length] is the number of code units.
    - A JavaScript number that carries a score is an exact rational [Q];
      counts and indexes are [nat], timestamps (milliseconds) are [Z].
    - The [natural] package (tokenizer, stemmer, TF-IDF) and [Math.sqrt] are
      external to the repository and enter as the operations of a class.
    - Asynchronous provider calls run in a small monad that threads the trace
      of HTTP requests and validator calls and may throw. *)

From Stdlib Require Import List Bool Arith ZArith QArith Qround Qabs Lia Lqa.
From Stdlib Require Import Ascii String Sorted Permutation.
Import ListNotations.

Open Scope string_scope.
Open Scope list_scope.
Open Scope nat_scope.

(* ================================================================== *)
(** * Part I. Definitions                                              *)
(* ================================================================== *)

(** ** JavaScript primitives used by the services *)
Module Js.

(** Characters matched by [\s] and removed by [String.prototype.trim]:
    TAB, LF, VT, FF, CR, SPACE and NBSP. *)
Definition isWhiteSpace (c : ascii) : bool :=
  let n := nat_of_ascii c in
  ((9 <=? n) && (n <=? 13)) || (n =? 32) || (n =? 160).

(** Characters the regular-expression dot does not match. *)
Definition isLineTerminator (c : ascii) : bool :=
  let n := nat_of_ascii c in (n =? 10) || (n =? 13).

(** The double quote and the apostrophe, the quote class of [cleanSummary]. *)
Definition isQuote (c : ascii) : bool :=
  let n := nat_of_ascii c in (n =? 34) || (n =? 39).

Fixpoint trimStart (s : string) : string :=
  match s with
  | EmptyString => EmptyString
  | String c s' => if isWhiteSpace c then trimStart s' else s
  end.

Fixpoint trimEnd (s : string) : string :=
  match s with
  | EmptyString => EmptyString
  | String c s' =>
      match trimEnd s' with
      | EmptyString => if isWhiteSpace c then EmptyString else String c EmptyString
      | t => String c t
      end
  end.

(** [s.trim()] *)
Definition trim (s : string) : string := trimEnd (trimStart s).

(** [s.split(sep)] for a one-character separator: one piece more than there
    are separators, empty pieces included. *)
Fixpoint split (sep : ascii) (s : string) : list string :=
  match s with
  | EmptyString => [EmptyString]
  | String c s' =>
      if Ascii.eqb c sep then EmptyString :: split sep s'
      else match split sep s' with
           | p :: ps => String c p :: ps
           | [] => [String c EmptyString]
           end
  end.

(** [s.split(/[...]+/)] for a character class [isSep]: the pieces between
    maximal runs of separator characters.  [inRun] records that the previous
    character already belonged to the current run. *)
Fixpoint splitRuns (isSep : ascii -> bool) (inRun : bool) (s : string) : list string :=
  match s with
  | EmptyString => [EmptyString]
  | String c s' =>
      if isSep c then
        if inRun then splitRuns isSep true s'
        else EmptyString :: splitRuns isSep true s'
      else match splitRuns isSep false s' with
           | p :: ps => String c p :: ps
           | [] => [String c EmptyString]
           end
  end.

(** [pieces.join(sep)] *)
Definition join (sep : string) (pieces : list string) : string :=
  String.concat sep pieces.

(** [s.includes(sub)] *)
Fixpoint includes (s sub : string) : bool :=
  String.prefix sub s ||
  match s with
  | EmptyString => false
  | String _ s' => includes s' sub
  end.

Definition lowerChar (c : ascii) : ascii :=
  let n := nat_of_ascii c in
  if ((65 <=? n) && (n <=? 90)) ||
     ((192 <=? n) && (n <=? 222) && negb (n =? 215))
  then ascii_of_nat (n + 32) else c.

(** [s.toLowerCase()] *)
Fixpoint toLowerCase (s : string) : string :=
  match s with
  | EmptyString => EmptyString
  | String c s' => String (lowerChar c) (toLowerCase s')
  end.

(** [s.substring(0, n)] *)
Definition substring0 (n : nat) (s : string) : string := String.substring 0 n s.

(** [s.substring(n)] *)
Fixpoint drop (n : nat) (s : string) : string :=
  match n, s with
  | O, _ => s
  | S n', String _ s' => drop n' s'
  | S _, EmptyString => EmptyString
  end.

(** Truthiness of a string: only the empty string is falsy. *)
Definition truthy (s : string) : bool :=
  match s with EmptyString => false | _ => true end.

(** The body of [Array.prototype.sort(cmp)]: a stable sort by a comparator
    that returns a number; [x] stays in front of [y] unless [cmp x y > 0]. *)
Fixpoint insert {A} (cmp : A -> A -> Q) (x : A) (l : list A) : list A :=
  match l with
  | [] => [x]
  | y :: l' => if Qle_bool (cmp x y) 0%Q then x :: l else y :: insert cmp x l'
  end.

Fixpoint sort {A} (cmp : A -> A -> Q) (l : list A) : list A :=
  match l with
  | [] => []
  | x :: l' => insert cmp x (sort cmp l')
  end.

(** [l.slice(0, n)] for an integer [n]: a negative end counts from the end
    of the array. *)
Definition slice0 {A} (n : Z) (l : list A) : list A :=
  if (0 <=? n)%Z then firstn (Z.to_nat n) l
  else firstn (List.length l - Z.to_nat (- n)) l.

(** [Math.min] and [Math.round] (halves round towards plus infinity). *)
Definition min (a b : Q) : Q := if Qle_bool a b then a else b.

Definition round (q : Q) : Z := Qfloor (q + (1 # 2))%Q.

End Js.

(** ** The external [natural] package and [Math.sqrt] *)

(** [tokenize] is [WordTokenizer.tokenize] (it may yield no array), [stem] is
    [PorterStemmer.stem], and [tfidf docs term d] is [tfidf.tfidf(term, d)]
    once every element of [docs] has been added with [addDocument].
    [sqrt n] is [Math.sqrt(n)]. *)
Class Natural : Type := {
  tokenize : string -> option (list string);
  stem : string -> string;
  tfidf : list (list string) -> string -> nat -> Q;
  sqrt : nat -> Q
}.

(** ** Summary configuration *)
Module Config.

(** The interface [SummaryConfig]: every field is optional. *)
Record t : Type := {
  maxSentences : option Z;
  maxTokens : option Z;
  temperature : option Q;
  model : option string;
  maxLength : option Z
}.

(** The default argument [{}]. *)
Definition empty : t :=
  {| maxSentences := None; maxTokens := None; temperature := None;
     model := None; maxLength := None |}.

(** The spread [{ ...config, model: m }]. *)
Definition withModel (config : t) (m : string) : t :=
  {| maxSentences := maxSentences config; maxTokens := maxTokens config;
     temperature := temperature config; model := Some m;
     maxLength := maxLength config |}.

(** [x = d] in a destructuring pattern. *)
Definition orDefault {A} (o : option A) (d : A) : A :=
  match o with Some a => a | None => d end.

End Config.

(** ** ExtractiveSummarizer *)
Module ExtractiveSummarizer.

Record Scored : Type := {
  sentence : string;
  score : Q;
  index : nat
}.

Definition stopWords : list string :=
  [ "the"; "a"; "an"; "and"; "or"; "but"; "in"; "on"; "at"; "to"; "for"; "of";
    "with"; "by"; "is"; "are"; "was"; "were"; "be"; "been"; "have"; "has"; "had";
    "do"; "does"; "did"; "will"; "would"; "could"; "should"; "may"; "might"; "must";
    "can"; "this"; "that"; "these"; "those"; "i"; "me"; "my"; "you"; "your"; "he";
    "him"; "his"; "she"; "her"; "it"; "its"; "we"; "us"; "our"; "they"; "them"; "their" ].

Definition isStopWord (t : string) : bool :=
  existsb (String.eqb t) stopWords.

Definition isTerminal (c : ascii) : bool :=
  let n := nat_of_ascii c in (n =? 46) || (n =? 33) || (n =? 63).

(** The filter of [splitIntoSentences]:
    [sentence.length > 15 && sentence.split(' ').length > 3]. *)
Definition keepSentence (s : string) : bool :=
  (15 <? String.length s) && (3 <? List.length (Js.split " " s)).

Definition splitIntoSentences (text : string) : list string :=
  filter keepSentence (map Js.trim (Js.splitRuns isTerminal false text)).

Section Scoring.
Context {N : Natural}.

Definition keepToken (t : string) : bool :=
  Js.truthy t && (2 <? String.length t) && negb (isStopWord t).

(** One entry of [documents]: the filtered stems of a sentence. *)
Definition termsOf (s : string) : list string :=
  match tokenize (Js.toLowerCase s) with
  | Some tokens => filter keepToken (map stem tokens)
  | None => []
  end.

Definition Qsum (l : list Q) : Q := fold_left Qplus l 0%Q.

Definition positionBonus (index : nat) : Q :=
  match index with
  | 0 => (15 # 100)%Q
  | 1 => (5 # 100)%Q
  | _ => 0%Q
  end.

Definition lengthPenalty (terms : list string) : Q :=
  if 30 <? List.length terms then (9 # 10)%Q else 1%Q.

(** The body of the [sentences.map] callback of [calculateSentenceScores]. *)
Definition scoreSentence (documents : list (list string)) (index : nat) : Q :=
  let terms := nth index documents [] in
  let score := Qsum (map (fun term => tfidf documents term index) terms) in
  if 0 <? List.length terms
  then ((score / sqrt (List.length terms)) * lengthPenalty terms + positionBonus index)%Q
  else 0%Q.

Definition calculateSentenceScores (sentences : list string) : list Scored :=
  let documents := map termsOf sentences in
  map (fun '(index, sentence) =>
         {| sentence := sentence;
            score := scoreSentence documents index;
            index := index |})
      (combine (seq 0 (List.length sentences)) sentences).

Definition byScoreDesc (a b : Scored) : Q := (score b - score a)%Q.

Definition byIndexAsc (a b : Scored) : Q :=
  inject_Z (Z.of_nat (index a) - Z.of_nat (index b)).

(** The sentences [generateSummary] selects when it scores, in output order. *)
Definition topSentences (maxSentences : Z) (sentences : list string) : list Scored :=
  Js.sort byIndexAsc
    (Js.slice0 maxSentences
       (Js.sort byScoreDesc (calculateSentenceScores sentences))).

Definition generateSummary (content : string) (config : Config.t) : string :=
  let maxSentences := Config.orDefault (Config.maxSentences config) 3%Z in
  let sentences := splitIntoSentences content in
  if (Z.of_nat (List.length sentences) <=? maxSentences)%Z
  then Js.join " " sentences
  else Js.join " " (map sentence (topSentences maxSentences sentences)).

End Scoring.
End ExtractiveSummarizer.

(** ** Asynchronous calls: outcomes and the trace of observable events *)
Module Async.

Inductive Event : Type :=
| Post (url model : string)
| Validated (candidate : string).

Inductive Outcome (A : Type) : Type :=
| Resolved (a : A)
| Rejected (message : string).
Arguments Resolved {A} a.
Arguments Rejected {A} message.

(** A computation yields its outcome and the events it caused, in order. *)
Definition M (A : Type) : Type := (Outcome A * list Event)%type.

Definition ret {A} (a : A) : M A := (Resolved a, []).

Definition throw {A} (message : string) : M A := (Rejected message, []).

Definition emit (e : Event) : M unit := (Resolved tt, [e]).

Definition bind {A B} (m : M A) (k : A -> M B) : M B :=
  match m with
  | (Resolved a, t) => let (r, t') := k a in (r, t ++ t')
  | (Rejected e, t) => (Rejected e, t)
  end.

(** [try { m } catch (error) { h error }] *)
Definition tryCatch {A} (m : M A) (h : string -> M A) : M A :=
  match m with
  | (Rejected e, t) => let (r, t') := h e in (r, t ++ t')
  | done => done
  end.

Definition outcome {A} (m : M A) : Outcome A := fst m.
Definition trace {A} (m : M A) : list Event := snd m.

End Async.

Notation "x <- m ;; k" := (Async.bind m (fun x => k))
  (at level 61, m at next level, right associativity).

(** ** AISummaryService *)
Module AISummaryService.
Import Async.

(** What a transport call gives back: a failure with the message
    [getErrorMessage] reads from it, or the text field the caller picks out of
    the body ([None] when the field is missing). *)
Inductive Response : Type :=
| HttpError (message : string)
| Body (text : option string).

(** The process environment read by the constructor and the remote world. *)
Record Env : Type := {
  ollamaBaseUrl : string;
  openAIApiKey : string;
  huggingFaceApiKey : string;
  cohereApiKey : string;
  respond : string -> string -> string -> Response
}.

(** [axios.post(url, { model, text })]: the request is recorded and the
    world answers; a transport failure throws. *)
Definition post (env : Env) (url model text : string) : M (option string) :=
  _ <- emit (Post url model) ;;
  match respond env url model text with
  | HttpError message => throw message
  | Body text => ret text
  end.

Inductive Method : Type := ai | extractive.

Record BestSummary : Type := {
  summary : string;
  provider : string;
  model : string;
  method : Method
}.

Definition nl : string := String (ascii_of_nat 10) EmptyString.

(** [.replace(/^\[.*?\]\s*/, '')]: the lazy body stops at the first closing
    bracket and the dot refuses line terminators. *)
Fixpoint afterBracket (s : string) : option string :=
  match s with
  | EmptyString => None
  | String c s' =>
      if Ascii.eqb c "]" then Some s'
      else if Js.isLineTerminator c then None
      else afterBracket s'
  end.

Definition stripBracketPrefix (s : string) : string :=
  match s with
  | String c s' =>
      if Ascii.eqb c "[" then
        match afterBracket s' with
        | Some rest => Js.trimStart rest
        | None => s
        end
      else s
  | EmptyString => s
  end.

(** [.replace(/^(summary|summary:)\s*/i, '')]: the first alternative always
    wins, so the seven letters and the white space after them go. *)
Definition stripSummaryLabel (s : string) : string :=
  if String.prefix "summary" (Js.toLowerCase s)
  then Js.trimStart (Js.drop 7 s)
  else s.

(** [.replace(/\s+/g, ' ')] *)
Fixpoint collapseWhiteSpace (inRun : bool) (s : string) : string :=
  match s with
  | EmptyString => EmptyString
  | String c s' =>
      if Js.isWhiteSpace c then
        if inRun then collapseWhiteSpace true s'
        else String " " (collapseWhiteSpace true s')
      else String c (collapseWhiteSpace false s')
  end.

Definition stripLeadingQuote (s : string) : string :=
  match s with
  | String c s' => if Js.isQuote c then s' else s
  | EmptyString => s
  end.

Fixpoint stripTrailingQuote (s : string) : string :=
  match s with
  | EmptyString => EmptyString
  | String c s' =>
      match s' with
      | EmptyString => if Js.isQuote c then EmptyString else s
      | String _ _ => String c (stripTrailingQuote s')
      end
  end.

(** [.replace(/^[quote]|[quote]$/g, '')] *)
Definition stripQuotes (s : string) : string :=
  stripTrailingQuote (stripLeadingQuote s).

Definition cleanSummary (summary : string) : string :=
  Js.trim
    (stripQuotes
       (collapseWhiteSpace false
          (stripSummaryLabel (stripBracketPrefix summary)))).

(** [len < originalLength * 0.8].  Both lengths are integers, so the
    comparison with the double nearest to four fifths of the length agrees
    with the exact one. *)
Definition below80Percent (len originalLength : nat) : bool :=
  5 * len <? 4 * originalLength.

Definition isValidSummary (summary originalContent : string) : bool :=
  let cleanSummary := cleanSummary summary in
  Js.truthy cleanSummary &&
  (20 <=? String.length cleanSummary) &&
  below80Percent (String.length cleanSummary) (String.length originalContent) &&
  (10 <=? List.length (Js.split " " cleanSummary)) &&
  negb (Js.includes (Js.toLowerCase cleanSummary) "error") &&
  negb (Js.includes (Js.toLowerCase cleanSummary) "failed") &&
  negb (Js.includes cleanSummary "undefined").

(** [const summary = field?.trim(); if (!summary || summary.length < 10) throw ...;
    return this.cleanSummary(summary)] *)
Definition checked (invalid : string) (field : option string) : M string :=
  match field with
  | Some text =>
      let summary := Js.trim text in
      if negb (Js.truthy summary) || (String.length summary <? 10)
      then throw invalid
      else ret (cleanSummary summary)
  | None => throw invalid
  end.

Definition truncateContent (content : string) (maxTokens : nat) : string :=
  let estimatedChars := maxTokens * 3 in
  if estimatedChars <? String.length content
  then (Js.substring0 estimatedChars content ++ "...")%string
  else content.

Definition generateOllamaSummary (env : Env) (content : string) (config : Config.t)
  : M string :=
  let model := Config.orDefault (Config.model config) "llama2" in
  tryCatch
    (let prompt :=
       ("Please provide a concise summary of the following text in 2-3 sentences. Focus on the main points and key insights:"
        ++ nl ++ nl ++ Js.substring0 2000 content
        ++ (if (2000 <? String.length content)%nat then "..." else "")
        ++ nl ++ nl ++ "Summary:")%string in
     field <- post env (ollamaBaseUrl env ++ "/api/generate")%string model prompt ;;
     checked "Invalid response from Ollama" field)
    (fun error => throw ("Ollama error: " ++ error)%string).

Definition generateCohereSummary (env : Env) (content : string) (config : Config.t)
  : M string :=
  let model := Config.orDefault (Config.model config) "command-light" in
  if negb (Js.truthy (cohereApiKey env)) then throw "Cohere API key not available"
  else
    tryCatch
      (field <- post env "https://api.cohere.ai/v1/summarize" model
                  (Js.substring0 100000 content) ;;
       checked "Invalid response from Cohere" field)
      (fun error => throw ("Cohere error: " ++ error)%string).

Definition freeModels : list string :=
  [ "sshleifer/distilbart-cnn-12-6"; "t5-small" ].

Definition modelsToTry (model : string) : list string :=
  if existsb (String.eqb model) freeModels
  then model :: filter (fun m => negb (String.eqb m model)) freeModels
  else freeModels.

(** The [for] loop of [generateHuggingFaceSummary] over the models left. *)
Fixpoint tryModels (env : Env) (content : string) (models : list string) : M string :=
  match models with
  | [] => throw "All HuggingFace models failed"
  | currentModel :: rest =>
      match
        (field <- post env ("https://api-inference.huggingface.co/models/" ++ currentModel)%string
                    currentModel (truncateContent content 1000) ;;
         checked ("Invalid summary from " ++ currentModel)%string field)
      with
      | (Resolved summary, t) => (Resolved summary, t)
      | (Rejected error, t) =>
          match rest with
          | [] => (Rejected ("HuggingFace error: " ++ error)%string, t)
          | _ :: _ => let (r, t') := tryModels env content rest in (r, t ++ t')
          end
      end
  end.

Definition generateHuggingFaceSummary (env : Env) (content : string) (config : Config.t)
  : M string :=
  let model := Config.orDefault (Config.model config) "sshleifer/distilbart-cnn-12-6" in
  if negb (Js.truthy (huggingFaceApiKey env)) then throw "HuggingFace API key not available"
  else tryModels env content (modelsToTry model).

Definition generateOpenAISummary (env : Env) (content : string) (config : Config.t)
  : M string :=
  let model := Config.orDefault (Config.model config) "gpt-3.5-turbo" in
  if negb (Js.truthy (openAIApiKey env)) then throw "OpenAI API key not available"
  else
    tryCatch
      (field <- post env "https://api.openai.com/v1/chat/completions" model
                  ("Summarize the following text in 2-3 concise sentences:" ++ nl ++ nl
                   ++ Js.substring0 3000 content)%string ;;
       checked "Invalid response from OpenAI" field)
      (fun error => throw ("OpenAI error: " ++ error)%string).

(** One entry of the result of [testAllProviders]. *)
Record Availability : Type := {
  available : bool;
  error : option string;
  testedModel : option string
}.

Record ProviderStatus : Type := {
  ollamaStatus : Availability;
  cohereStatus : Availability;
  huggingfaceStatus : Availability;
  openaiStatus : Availability;
  extractiveStatus : Availability
}.

Definition testContent : string :=
  "Artificial intelligence is transforming how we work and live. Machine learning algorithms can now perform complex tasks that once required human intelligence. This technology has applications in healthcare, finance, and many other industries.".

(** [try { await call; ok } catch (error) { { available: false, error } }] *)
Definition probe (call : M string) (model : string) : M Availability :=
  tryCatch
    (_ <- call ;;
     ret {| available := true; error := None; testedModel := Some model |})
    (fun message =>
       ret {| available := false; error := Some message; testedModel := None |}).

Definition keyed (key : string) (call : M string) (model : string) : M Availability :=
  if Js.truthy key then probe call model
  else ret {| available := false; error := Some "API key not provided";
              testedModel := None |}.

Definition testAllProviders (env : Env) : M ProviderStatus :=
  ollama <- probe (generateOllamaSummary env testContent (Config.withModel Config.empty "llama2"))
                  "llama2" ;;
  cohere <- keyed (cohereApiKey env)
                  (generateCohereSummary env testContent Config.empty) "command-light" ;;
  huggingface <- keyed (huggingFaceApiKey env)
                       (generateHuggingFaceSummary env testContent Config.empty)
                       "sshleifer/distilbart-cnn-12-6" ;;
  openai <- keyed (openAIApiKey env)
                  (generateOpenAISummary env testContent Config.empty) "gpt-3.5-turbo" ;;
  ret {| ollamaStatus := ollama; cohereStatus := cohere;
         huggingfaceStatus := huggingface; openaiStatus := openai;
         extractiveStatus :=
           {| available := true; error := None; testedModel := Some "tf-idf" |} |}.

Section Chain.
Context {N : Natural}.

(** The array [providers] of [generateBestSummary], in order. *)
Definition providers (env : Env) (content : string) (config : Config.t)
  : list (string * M string) :=
  [ ("ollama", generateOllamaSummary env content (Config.withModel config "llama2"));
    ("cohere", generateCohereSummary env content config);
    ("huggingface", generateHuggingFaceSummary env content config);
    ("openai", generateOpenAISummary env content config) ].

Definition extractiveResult (content : string) (config : Config.t) : BestSummary :=
  {| summary := ExtractiveSummarizer.generateSummary content config;
     provider := "extractive";
     model := "tf-idf";
     method := extractive |}.

(** The [for] loop over the providers left, then the extractive fallback. *)
Fixpoint tryProviders (content : string) (config : Config.t)
  (ps : list (string * M string)) : M BestSummary :=
  match ps with
  | [] => ret (extractiveResult content config)
  | (name, call) :: rest =>
      attempt <-
        tryCatch
          (summary <- call ;;
           _ <- emit (Validated summary) ;;
           if isValidSummary summary content
           then ret (Some {| summary := summary;
                             provider := name;
                             model := (let m := Config.orDefault (Config.model config) "" in
                                       if Js.truthy m then m else "default");
                             method := ai |})
           else ret None)
          (fun _ => ret None) ;;
      match attempt with
      | Some result => ret result
      | None => tryProviders content config rest
      end
  end.

Definition generateBestSummary (env : Env) (content : string) (config : Config.t)
  : M BestSummary :=
  tryProviders content config (providers env content config).

End Chain.
End AISummaryService.

(** ** SummaryService *)
Module SummaryService.
Import Async.

Record ArticleSummary : Type := {
  summary : string;
  generated : bool;
  provider : string;
  model : string;
  method : AISummaryService.Method
}.

Definition getProvidersStatus (env : AISummaryService.Env)
  : M AISummaryService.ProviderStatus :=
  AISummaryService.testAllProviders env.

Section Service.
Context {N : Natural}.

Definition generateSummaryForArticle (env : AISummaryService.Env)
  (content : string) (existingSummary : option string) : M ArticleSummary :=
  let existing := Config.orDefault existingSummary "" in
  if Js.truthy existing && Js.truthy (Js.trim existing) then
    ret {| summary := Js.trim existing;
           generated := false;
           provider := "user-provided";
           model := "none";
           method := AISummaryService.extractive |}
  else
    result <- AISummaryService.generateBestSummary env content
                {| Config.maxSentences := Some 3%Z; Config.maxTokens := None;
                   Config.temperature := None; Config.model := None;
                   Config.maxLength := None |} ;;
    ret {| summary := AISummaryService.summary result;
           generated := true;
           provider := AISummaryService.provider result;
           model := AISummaryService.model result;
           method := AISummaryService.method result |}.

Definition summarize (env : AISummaryService.Env) (content : string)
  (maxSentences : option Z) : M string :=
  result <- AISummaryService.generateBestSummary env content
              {| Config.maxSentences := Some (Config.orDefault maxSentences 3%Z);
                 Config.maxTokens := None; Config.temperature := None;
                 Config.model := None; Config.maxLength := None |} ;;
  ret (AISummaryService.summary result).

End Service.
End SummaryService.

(** ** The stored documents and the MongoDB operations used on them *)

(** An [ObjectId] is a natural number and a [Date] its milliseconds. *)
Definition ObjectId : Type := nat.

Definition Qnat (n : nat) : Q := inject_Z (Z.of_nat n).

Module User.

Record t : Type := {
  _id : ObjectId;
  username : string;
  interests : list string
}.

End User.

Module Article.

Record t : Type := {
  _id : ObjectId;
  author : string;
  tags : option (list string);
  createdAt : Z
}.

End Article.

Inductive InteractionType : Type := view | like | share | comment.

Definition InteractionType_eqb (a b : InteractionType) : bool :=
  match a, b with
  | view, view | like, like | share, share | comment, comment => true
  | _, _ => false
  end.

Module Interaction.

Record t : Type := {
  userId : ObjectId;
  articleId : ObjectId;
  interactionType : InteractionType;
  createdAt : Z
}.

End Interaction.

(** The three collections, each in its natural order. *)
Record Store : Type := {
  users : list User.t;
  articles : list Article.t;
  interactions : list Interaction.t
}.

Module Mongo.

(** [Query.limit(n)]: a limit of zero is no limit. *)
Definition limit {A} (n : nat) (l : list A) : list A :=
  if n =? 0 then l else firstn n l.

(** The keys of the groups a [$group] stage forms, in order of first
    appearance. *)
Fixpoint distinct {K} (eqb : K -> K -> bool) (l : list K) : list K :=
  match l with
  | [] => []
  | k :: l' => k :: filter (fun k' => negb (eqb k' k)) (distinct eqb l')
  end.

(** [{ $sum: { $cond: [p, 1, 0] } }] over the members of a group. *)
Definition sumCond {A} (p : A -> bool) (l : list A) : nat :=
  List.length (filter p l).

(** [{ $sort: { k1: -1, k2: -1 } }] *)
Definition descending {A} (k1 k2 : A -> nat) (a b : A) : Q :=
  if k1 a =? k1 b then (Qnat (k2 b) - Qnat (k2 a))%Q
  else (Qnat (k1 b) - Qnat (k1 a))%Q.

End Mongo.

(** ** RecommendationService *)
Module RecommendationService.
Import Async.

Record RecommendationScore : Type := {
  article : Article.t;
  score : Q;
  reasons : list string
}.

Definition matches (articleTags : list string) (interest : string) : bool :=
  existsb (fun tag => Js.includes tag interest || Js.includes interest tag) articleTags.

Definition calculateInterestScore (userInterests articleTags : list string) : Q :=
  if (List.length userInterests =? 0) || (List.length articleTags =? 0) then 0%Q
  else
    let matchingTags := filter (matches articleTags) userInterests in
    (Qnat (List.length matchingTags) / Qnat (List.length userInterests))%Q.

Definition getMatchingInterests (userInterests articleTags : list string) : list string :=
  filter (matches articleTags) userInterests.

(** The table [weights]; every interaction type has an entry, so the
    alternative [|| 1] is never taken. *)
Definition weights (type : InteractionType) : nat :=
  match type with view => 1 | like => 3 | share => 5 | comment => 4 end.

(** The aggregation of [calculatePopularityScore]: the interactions of the
    article grouped by type, each group with its size. *)
Definition interactionCounts (store : Store) (articleId : ObjectId)
  : list (InteractionType * nat) :=
  let matched :=
    filter (fun i => Interaction.articleId i =? articleId) (interactions store) in
  map (fun type =>
         (type, Mongo.sumCond
                  (fun i => InteractionType_eqb (Interaction.interactionType i) type)
                  matched))
      (Mongo.distinct InteractionType_eqb (map Interaction.interactionType matched)).

Definition totalScore (counts : list (InteractionType * nat)) : nat :=
  fold_left (fun total '(type, count) => total + count * weights type) counts 0.

Definition calculatePopularityScore (store : Store) (articleId : ObjectId) : Q :=
  Js.min (Qnat (totalScore (interactionCounts store articleId)) / 100)%Q 1%Q.

Definition msPerDay : Z := (1000 * 60 * 60 * 24)%Z.

Definition calculateFreshnessScore (now createdAt : Z) : Q :=
  let ageInDays := (inject_Z (now - createdAt) / inject_Z msPerDay)%Q in
  if Qle_bool ageInDays 1 then 1%Q
  else if Qle_bool ageInDays 7 then (9 # 10)%Q
  else if Qle_bool ageInDays 30 then (7 # 10)%Q
  else if Qle_bool ageInDays 90 then (4 # 10)%Q
  else (2 # 10)%Q.

(** [Article.find({ author }).limit(10)] *)
Definition authorArticles (store : Store) (author : string) : list Article.t :=
  Mongo.limit 10 (filter (fun a => String.eqb (Article.author a) author) (articles store)).

Definition calculateAuthorScore (store : Store) (author : string) : Q :=
  let authorArticles := authorArticles store author in
  if List.length authorArticles =? 0 then (1 # 2)%Q
  else
    let scores := map (fun a => calculatePopularityScore store (Article._id a)) authorArticles in
    (fold_left Qplus scores 0 / Qnat (List.length scores))%Q.

(** [a > b] on numbers. *)
Definition Qgt_bool (a b : Q) : bool := negb (Qle_bool a b).

Definition calculateRecommendationScore (store : Store) (now : Z)
  (user : User.t) (article : Article.t) : RecommendationScore :=
  let tags := Config.orDefault (Article.tags article) [] in
  let interestScore := calculateInterestScore (User.interests user) tags in
  let score := (0 + interestScore * (4 # 10))%Q in
  let reasons :=
    if Qgt_bool interestScore 0
    then [ ("Matches your interests: " ++
            Js.join ", " (getMatchingInterests (User.interests user) tags))%string ]
    else [] in
  let popularityScore := calculatePopularityScore store (Article._id article) in
  let score := (score + popularityScore * (3 # 10))%Q in
  let reasons :=
    if Qgt_bool popularityScore (7 # 10) then reasons ++ [ "Popular among users" ]
    else reasons in
  let freshnessScore := calculateFreshnessScore now (Article.createdAt article) in
  let score := (score + freshnessScore * (2 # 10))%Q in
  let reasons :=
    if Qgt_bool freshnessScore (8 # 10) then reasons ++ [ "Recent content" ]
    else reasons in
  let authorScore := calculateAuthorScore store (Article.author article) in
  let score := (score + authorScore * (1 # 10))%Q in
  let reasons :=
    if Qgt_bool authorScore (7 # 10) then reasons ++ [ "From popular author" ]
    else reasons in
  let reasons :=
    if List.length reasons =? 0 then reasons ++ [ "General recommendation" ]
    else reasons in
  {| article := article; score := Js.min score 1; reasons := reasons |}.

Definition byScoreDesc (a b : RecommendationScore) : Q := (score b - score a)%Q.

Definition getRecommendations (store : Store) (now : Z) (userId : ObjectId) (limit : nat)
  : Outcome (list RecommendationScore) :=
  match find (fun u => User._id u =? userId) (users store) with
  | None => Rejected "User not found"
  | Some user =>
      let userInteractions :=
        filter (fun i => Interaction.userId i =? userId) (interactions store) in
      let interactedArticleIds := map Interaction.articleId userInteractions in
      let candidateArticles :=
        Mongo.limit (limit * 2)
          (filter (fun a => negb (existsb (Nat.eqb (Article._id a)) interactedArticleIds))
                  (articles store)) in
      if List.length candidateArticles =? 0 then Resolved []
      else
        let recommendations :=
          map (calculateRecommendationScore store now user) candidateArticles in
        Resolved (Js.slice0 (Z.of_nat limit) (Js.sort byScoreDesc recommendations))
  end.

(** One group of the aggregation of [getTrendingArticles]. *)
Record Trending : Type := {
  _id : ObjectId;
  interactionCount : nat;
  likeCount : nat
}.

Definition isLike (i : Interaction.t) : bool :=
  InteractionType_eqb (Interaction.interactionType i) like.

(** The stages [$match], [$group] and [$sort] of the pipeline. *)
Definition trendingGroups (store : Store) (now : Z) : list Trending :=
  let oneDayAgo := (now - 24 * 60 * 60 * 1000)%Z in
  let matched :=
    filter (fun i => (oneDayAgo <=? Interaction.createdAt i)%Z) (interactions store) in
  Js.sort (Mongo.descending likeCount interactionCount)
    (map (fun id =>
            let members := filter (fun i => Interaction.articleId i =? id) matched in
            {| _id := id;
               interactionCount := List.length members;
               likeCount := Mongo.sumCond isLike members |})
         (Mongo.distinct Nat.eqb (map Interaction.articleId matched))).

(** The database refuses a [$limit] that is not positive. *)
Definition getTrendingArticles (store : Store) (now : Z) (limit : nat)
  : Outcome (list Article.t) :=
  if limit =? 0 then Rejected "the limit must be positive"
  else
    let trending := firstn limit (trendingGroups store now) in
    let articleIds := map _id trending in
    Resolved (filter (fun a => existsb (Nat.eqb (Article._id a)) articleIds)
                     (articles store)).

End RecommendationService.

(** ** The Interaction model: statics and methods *)
Module InteractionSchema.
Import Async.

Definition msPerHour : Z := (60 * 60 * 1000)%Z.

(** The virtual [ageInDays]. *)
Definition ageInDays (now : Z) (this : Interaction.t) : Z :=
  Qceiling (inject_Z (Z.abs (now - Interaction.createdAt this))
            / inject_Z (1000 * 60 * 60 * 24))%Q.

Definition isRecent (now : Z) (this : Interaction.t) (hours : Z) : bool :=
  let hoursAgo := (now - hours * msPerHour)%Z in
  (hoursAgo <? Interaction.createdAt this)%Z.

Definition hasType (type : InteractionType) (i : Interaction.t) : bool :=
  InteractionType_eqb (Interaction.interactionType i) type.

Definition getArticleStats (store : Store) (articleId : ObjectId)
  : list (InteractionType * nat) :=
  let matched :=
    filter (fun i => Interaction.articleId i =? articleId) (interactions store) in
  map (fun type => (type, Mongo.sumCond (hasType type) matched))
      (Mongo.distinct InteractionType_eqb (map Interaction.interactionType matched)).

Definition getUserArticleInteractions (store : Store) (userId articleId : ObjectId)
  : list Interaction.t :=
  filter (fun i => (Interaction.userId i =? userId) &&
                   (Interaction.articleId i =? articleId))
         (interactions store).

Record Stats : Type := {
  totalInteractions : nat;
  likes : nat;
  shares : nat;
  comments : nat;
  views : nat;
  engagementScore : nat
}.

(** A group after [$group] and [$addFields]. *)
Record Group : Type := {
  _id : ObjectId;
  stats : Stats
}.

Record Trending : Type := {
  article : Article.t;
  trendingStats : Stats
}.

Definition statsOf (members : list Interaction.t) : Stats :=
  let likes := Mongo.sumCond (hasType like) members in
  let shares := Mongo.sumCond (hasType share) members in
  let comments := Mongo.sumCond (hasType comment) members in
  let views := Mongo.sumCond (hasType view) members in
  {| totalInteractions := List.length members;
     likes := likes; shares := shares; comments := comments; views := views;
     engagementScore := views + likes * 3 + shares * 5 + comments * 4 |}.

Definition engagement (g : Group) : nat := engagementScore (stats g).
Definition total (g : Group) : nat := totalInteractions (stats g).

(** The stages [$match], [$group], [$addFields] and [$sort]. *)
Definition trendingGroups (store : Store) (now hours : Z) : list Group :=
  let timeAgo := (now - hours * 60 * 60 * 1000)%Z in
  let matched :=
    filter (fun i => (timeAgo <=? Interaction.createdAt i)%Z) (interactions store) in
  Js.sort (Mongo.descending engagement total)
    (map (fun id =>
            {| _id := id;
               stats := statsOf (filter (fun i => Interaction.articleId i =? id) matched) |})
         (Mongo.distinct Nat.eqb (map Interaction.articleId matched))).

(** The stages [$lookup], [$unwind] and [$project]: one entry for every
    article a group's id names, none for a group without an article. *)
Definition lookup (store : Store) (g : Group) : list Trending :=
  map (fun a => {| article := a; trendingStats := stats g |})
      (filter (fun a => Article._id a =? _id g) (articles store)).

(** The database refuses a [$limit] that is not positive. *)
Definition getTrendingArticles (store : Store) (now hours : Z) (limit : nat)
  : Outcome (list Trending) :=
  if limit =? 0 then Rejected "the limit must be positive"
  else Resolved (flat_map (lookup store) (firstn limit (trendingGroups store now hours))).

End InteractionSchema.

(** ** RecommendationController *)
Module RecommendationController.
Import Async.

Record Formatted : Type := {
  article : Article.t;
  score : Q;
  reasons : list string
}.

(** The bodies sent with [res.json]; the processing time is left out. *)
Inductive Reply : Type :=
| Recommendations (userId : ObjectId) (recommendations : list Formatted) (count : nat)
| Articles (articles : list Article.t) (count : nat) (message : string)
| NotFound (status : nat) (message : string).

(** [Math.round(rec.score * 100) / 100] *)
Definition roundScore (score : Q) : Q :=
  (inject_Z (Js.round (score * 100)) / 100)%Q.

Definition format (rec : RecommendationService.RecommendationScore) : Formatted :=
  {| article := RecommendationService.article rec;
     score := roundScore (RecommendationService.score rec);
     reasons := RecommendationService.reasons rec |}.

Definition getRecommendations (store : Store) (now : Z) (user_id : ObjectId) (limit : nat)
  : Outcome Reply :=
  match RecommendationService.getRecommendations store now user_id limit with
  | Resolved recommendations =>
      Resolved (Recommendations user_id (map format recommendations)
                                (List.length recommendations))
  | Rejected message =>
      if String.eqb message "User not found"
      then Resolved (NotFound 404 "User not found")
      else Rejected message
  end.

Definition getTrendingArticles (store : Store) (now : Z) (limit : nat) : Outcome Reply :=
  match RecommendationService.getTrendingArticles store now limit with
  | Resolved trendingArticles =>
      Resolved (Articles trendingArticles (List.length trendingArticles)
                         "Trending articles retrieved successfully")
  | Rejected message => Rejected message
  end.


End RecommendationController.

(** ** Predicates used in the statements *)

(** The requests among the events of a trace. *)
Definition isPost (e : Async.Event) : bool :=
  match e with Async.Post _ _ => true | Async.Validated _ => false end.

Definition requests (t : list Async.Event) : list Async.Event := filter isPost t.

(** The request [generateHuggingFaceSummary] sends for a model. *)
Definition huggingFaceRequest (model : string) : Async.Event :=
  Async.Post ("https://api-inference.huggingface.co/models/" ++ model)%string model.

(** Every white-space character of [s] is a plain space, and no two of them
    are neighbours. *)
Fixpoint singleSpaced (s : string) : Prop :=
  match s with
  | EmptyString => True
  | String c s' =>
      (Js.isWhiteSpace c = true ->
       c = " "%char /\
       match s' with
       | String d _ => Js.isWhiteSpace d = false
       | EmptyString => True
       end) /\
      singleSpaced s'
  end.

(** The interactions stored for an article, and the store after one more
    interaction has been saved. *)
Definition interactionsOf (store : Store) (articleId : ObjectId) : list Interaction.t :=
  filter (fun i => Interaction.articleId i =? articleId) (interactions store).

Definition saved (store : Store) (i : Interaction.t) : Store :=
  {| users := users store;
     articles := articles store;
     interactions := interactions store ++ [i] |}.

(** The store without the interactions created before [since]. *)
Definition within (store : Store) (since : Z) : Store :=
  {| users := users store;
     articles := articles store;
     interactions :=
       filter (fun i => (since <=? Interaction.createdAt i)%Z) (interactions store) |}.

(** The order of the trending list: more engagement first, and among equal
    engagement more interactions first. *)
Definition ranksBefore (a b : InteractionSchema.Stats) : Prop :=
  InteractionSchema.engagementScore b < InteractionSchema.engagementScore a \/
  (InteractionSchema.engagementScore b = InteractionSchema.engagementScore a /\
   InteractionSchema.totalInteractions b <= InteractionSchema.totalInteractions a).

(** [s] does not start with a white-space character. *)
Definition startsClean (s : string) : Prop :=
  match s with
  | String d _ => Js.isWhiteSpace d = false
  | EmptyString => True
  end.

(** No character of [s] is in the class [p]. *)
Definition noneOf (p : ascii -> bool) (s : string) : Prop :=
  forall c, In c (list_ascii_of_string s) -> p c = false.

(** ** Sample data for the examples *)
Module Sample.

(** A stand-in for the [natural] package: tokens are the space-separated
    pieces, stemming does nothing, the weight of a term is its frequency in
    the document, and the square root is the integer one. *)
Definition natural : Natural :=
  {| tokenize := fun s => Some (Js.split " " s);
     stem := fun t => t;
     tfidf := fun documents term d =>
                Qnat (count_occ string_dec (nth d documents []) term);
     sqrt := fun n => Qnat (Nat.sqrt n) |}.

(** No API key is configured and no server answers. *)
Definition offline : AISummaryService.Env :=
  {| AISummaryService.ollamaBaseUrl := "http://localhost:11434";
     AISummaryService.openAIApiKey := "";
     AISummaryService.huggingFaceApiKey := "";
     AISummaryService.cohereApiKey := "";
     AISummaryService.respond := fun _ _ _ => AISummaryService.HttpError "connect ECONNREFUSED" |}.

(** Every key is configured and every server answers with the same text. *)
Definition answering (text : string) : AISummaryService.Env :=
  {| AISummaryService.ollamaBaseUrl := "http://localhost:11434";
     AISummaryService.openAIApiKey := "sk-key";
     AISummaryService.huggingFaceApiKey := "hf-key";
     AISummaryService.cohereApiKey := "co-key";
     AISummaryService.respond := fun _ _ _ => AISummaryService.Body (Some text) |}.

(** Ollama is unreachable; every other provider answers a text that the
    validator refuses. *)
Definition refusing : AISummaryService.Env :=
  {| AISummaryService.ollamaBaseUrl := "http://localhost:11434";
     AISummaryService.openAIApiKey := "sk-key";
     AISummaryService.huggingFaceApiKey := "hf-key";
     AISummaryService.cohereApiKey := "co-key";
     AISummaryService.respond := fun url _ _ =>
       if String.prefix "http://localhost" url
       then AISummaryService.HttpError "connect ECONNREFUSED"
       else AISummaryService.Body (Some "Rain flooded the whole town.") |}.

Definition story : string :=
  "The river rose quickly after the heavy rain fell. Nobody in the small town expected any flood that night. Volunteers carried sand bags until the early morning. The water finally stopped near the old stone bridge. Everyone helped clean the muddy streets.".

Definition interaction (user article : ObjectId) (type : InteractionType) (at_ : Z)
  : Interaction.t :=
  {| Interaction.userId := user; Interaction.articleId := article;
     Interaction.interactionType := type; Interaction.createdAt := at_ |}.

Definition articleA : Article.t :=
  {| Article._id := 1; Article.author := "ann";
     Article.tags := Some ["tech"; "ai"]; Article.createdAt := 1000%Z |}.

Definition articleB : Article.t :=
  {| Article._id := 2; Article.author := "bob";
     Article.tags := Some ["sports"]; Article.createdAt := 2000%Z |}.

Definition reader : User.t :=
  {| User._id := 7; User.username := "reader"; User.interests := ["ai"; "cooking"] |}.

(** Article A has one like, article B two shares, all within the last day. *)
Definition store : Store :=
  {| users := [reader];
     articles := [articleA; articleB];
     interactions :=
       [ interaction 8 1 like 5000%Z;
         interaction 8 2 share 6000%Z;
         interaction 9 2 share 7000%Z ] |}.

(** Eleven articles of one author in the order they were written; only the
    newest one has interactions, twenty likes. *)
Definition prolific : Store :=
  {| users := [reader];
     articles :=
       map (fun k => {| Article._id := k; Article.author := "ann";
                        Article.tags := None;
                        Article.createdAt := (1000 * Z.of_nat k)%Z |})
           (seq 1 11);
     interactions := map (fun u => interaction u 11 like 20000%Z) (seq 1 20) |}.

(** One article and no interaction at all. *)
Definition quiet : Store :=
  {| users := [reader]; articles := [articleA]; interactions := [] |}.

End Sample.

(* ================================================================== *)
(** * Part II. Properties                                              *)
(* ================================================================== *)

(** ** Facts about the JavaScript primitives *)
Section SortFacts.
Context {A : Type} (cmp : A -> A -> Q).

Lemma insert_perm (x : A) (l : list A) : Permutation (Js.insert cmp x l) (x :: l).
Proof.
  induction l as [|y l IH]; simpl; [reflexivity|].
  destruct (Qle_bool (cmp x y) 0); [reflexivity|].
  rewrite IH. apply perm_swap.
Qed.

Lemma sort_perm (l : list A) : Permutation (Js.sort cmp l) l.
Proof.
  induction l as [|x l IH]; simpl; [reflexivity|].
  rewrite insert_perm. now constructor.
Qed.

Lemma sort_length (l : list A) : List.length (Js.sort cmp l) = List.length l.
Proof. apply Permutation_length, sort_perm. Qed.

Lemma sort_In (x : A) (l : list A) : In x (Js.sort cmp l) <-> In x l.
Proof.
  split; apply Permutation_in; [|symmetry]; apply sort_perm.
Qed.

(** A comparator that decides a total, transitive order sorts by it. *)
Context (R : A -> A -> Prop).
Hypothesis R_trans : forall x y z, R x y -> R y z -> R x z.
Hypothesis cmp_le : forall x y, Qle_bool (cmp x y) 0 = true -> R x y.
Hypothesis cmp_gt : forall x y, Qle_bool (cmp x y) 0 = false -> R y x.

Lemma insert_sorted (x : A) (l : list A) :
  StronglySorted R l -> StronglySorted R (Js.insert cmp x l).
Proof.
  induction 1 as [|y l Hl IH Hy]; simpl.
  - repeat constructor.
  - destruct (Qle_bool (cmp x y) 0) eqn:E.
    + constructor; [now constructor|].
      constructor; [now apply cmp_le|].
      eapply Forall_impl; [|exact Hy]. intros z Hz.
      eapply R_trans; [apply cmp_le, E | exact Hz].
    + constructor; [exact IH|].
      eapply Permutation_Forall; [symmetry; apply insert_perm|].
      constructor; [now apply cmp_gt | exact Hy].
Qed.

Lemma sort_sorted (l : list A) : StronglySorted R (Js.sort cmp l).
Proof.
  induction l as [|x l IH]; simpl; [constructor | now apply insert_sorted].
Qed.

End SortFacts.

Lemma firstn_incl {A} (n : nat) (l : list A) (x : A) : In x (firstn n l) -> In x l.
Proof.
  revert l. induction n as [|n IH]; intros [|y l]; simpl; try tauto.
  intros [H|H]; [now left | right; now apply IH].
Qed.

Lemma slice0_incl {A} (n : Z) (l : list A) (x : A) : In x (Js.slice0 n l) -> In x l.
Proof.
  unfold Js.slice0. destruct (0 <=? n)%Z; apply firstn_incl.
Qed.

Lemma slice0_length {A} (n : Z) (l : list A) :
  (0 <= n <= Z.of_nat (List.length l))%Z ->
  List.length (Js.slice0 n l) = Z.to_nat n.
Proof.
  intros [H0 Hn]. unfold Js.slice0.
  destruct (Z.leb_spec 0 n); [|lia].
  rewrite length_firstn. lia.
Qed.

Lemma length_append (s t : string) :
  String.length (s ++ t) = String.length s + String.length t.
Proof. induction s as [|c s IH]; simpl; [reflexivity | now rewrite IH]. Qed.

Lemma join_cons_length (sep x : string) (l : list string) :
  String.length x <= String.length (Js.join sep (x :: l)).
Proof.
  unfold Js.join. simpl. destruct l; [lia|].
  rewrite !length_append. lia.
Qed.

(** ** ExtractiveSummarizer *)
Section ExtractiveFacts.
Import ExtractiveSummarizer.
Context {N : Natural}.

Lemma combine_seq_nth {A} (l : list A) (a i : nat) (x : A) :
  In (i, x) (combine (seq a (List.length l)) l) ->
  a <= i /\ nth_error l (i - a) = Some x.
Proof.
  revert a. induction l as [|y l IH]; simpl; intros a H; [tauto|].
  destruct H as [H|H].
  - inversion H; subst. rewrite Nat.sub_diag. now split.
  - apply IH in H as [Ha Hn]. split; [lia|].
    replace (i - a) with (S (i - S a)) by lia. exact Hn.
Qed.

Lemma combine_seq_nth_error {A} (l : list A) (a i : nat) :
  nth_error (combine (seq a (List.length l)) l) i =
  option_map (fun x => (a + i, x)) (nth_error l i).
Proof.
  revert a i. induction l as [|y l IH]; intros a [|i]; simpl; try reflexivity.
  - now rewrite Nat.add_0_r.
  - rewrite IH. destruct (nth_error l i); simpl; [|reflexivity].
    now rewrite Nat.add_succ_r.
Qed.

(** The entry at position [i] carries the [i]-th sentence, the index [i]
    and the score of the [i]-th document. *)
Lemma calculateSentenceScores_nth (sentences : list string) (i : nat) (a : Scored) :
  nth_error (calculateSentenceScores sentences) i = Some a ->
  nth_error sentences i = Some (sentence a) /\
  index a = i /\
  score a = scoreSentence (map termsOf sentences) i.
Proof.
  unfold calculateSentenceScores. rewrite nth_error_map, combine_seq_nth_error.
  destruct (nth_error sentences i) as [x|]; simpl; [|discriminate].
  intros H. inversion H; subst. simpl. auto.
Qed.

Lemma calculateSentenceScores_length (sentences : list string) :
  List.length (calculateSentenceScores sentences) = List.length sentences.
Proof.
  unfold calculateSentenceScores.
  rewrite length_map, length_combine, length_seq. lia.
Qed.

Lemma calculateSentenceScores_In (sentences : list string) (a : Scored) :
  In a (calculateSentenceScores sentences) ->
  nth_error sentences (index a) = Some (sentence a).
Proof.
  intros H. apply In_nth_error in H as [i Hi].
  apply calculateSentenceScores_nth in Hi as (Hs & Hx & _). now rewrite Hx.
Qed.

Lemma document_nth (sentences : list string) (i : nat) (x : string) :
  nth_error sentences i = Some x ->
  nth i (map termsOf sentences) [] = termsOf x.
Proof.
  intros H. apply nth_error_nth. now rewrite nth_error_map, H.
Qed.

Lemma byIndexAsc_le (a b : Scored) :
  Qle_bool (byIndexAsc a b) 0 = true -> index a <= index b.
Proof.
  unfold byIndexAsc. rewrite Qle_bool_iff. unfold Qle. simpl. lia.
Qed.

Lemma byIndexAsc_gt (a b : Scored) :
  Qle_bool (byIndexAsc a b) 0 = false -> index b <= index a.
Proof.
  unfold byIndexAsc. intros H.
  destruct (Nat.le_gt_cases (index b) (index a)) as [|Hlt]; [assumption|].
  assert (Qle_bool (inject_Z (Z.of_nat (index a) - Z.of_nat (index b))) 0 = true) as E.
  { rewrite Qle_bool_iff. unfold Qle. simpl. lia. }
  congruence.
Qed.

Lemma topSentences_sorted (n : Z) (sentences : list string) :
  StronglySorted (fun a b => index a <= index b) (topSentences n sentences).
Proof.
  unfold topSentences. apply sort_sorted.
  - intros x y z. apply Nat.le_trans.
  - apply byIndexAsc_le.
  - apply byIndexAsc_gt.
Qed.

Lemma topSentences_In (n : Z) (sentences : list string) (a : Scored) :
  In a (topSentences n sentences) -> In a (calculateSentenceScores sentences).
Proof.
  unfold topSentences. rewrite sort_In. intros H.
  apply slice0_incl in H. now apply sort_In in H.
Qed.

Lemma topSentences_length (n : Z) (sentences : list string) :
  (0 <= n <= Z.of_nat (List.length sentences))%Z ->
  List.length (topSentences n sentences) = Z.to_nat n.
Proof.
  intros H. unfold topSentences.
  rewrite sort_length, slice0_length; [reflexivity|].
  now rewrite sort_length, calculateSentenceScores_length.
Qed.

End ExtractiveFacts.

Section ExtractiveClaims.
Import ExtractiveSummarizer.
Context {N : Natural}.

(** C5.  When [maxSentences] is a number [n] with [0 <= n] below the number
    of sentences, so that scoring occurs, the summary is the single-space
    join of exactly [n] selected sentences; their original indexes are in
    non-decreasing order whatever their scores, and each one is the sentence
    of the input found at its index. *)
Theorem summary_in_original_order (content : string) (config : Config.t) :
  let n := Config.orDefault (Config.maxSentences config) 3%Z in
  let sentences := splitIntoSentences content in
  (0 <= n < Z.of_nat (List.length sentences))%Z ->
  exists selected : list Scored,
    generateSummary content config = Js.join " " (map sentence selected) /\
    List.length selected = Z.to_nat n /\
    StronglySorted (fun a b => index a <= index b) selected /\
    Forall (fun a => nth_error sentences (index a) = Some (sentence a)) selected.
Proof.
  intros n sentences Hn.
  exists (topSentences n sentences). repeat split.
  - unfold generateSummary. fold n. fold sentences.
    destruct (Z.leb_spec (Z.of_nat (List.length sentences)) n); [lia | reflexivity].
  - apply topSentences_length. lia.
  - apply topSentences_sorted.
  - apply Forall_forall. intros a Ha.
    apply calculateSentenceScores_In. eapply topSentences_In, Ha.
Qed.





(** C10.  A sentence whose filtered term list is empty scores exactly zero,
    at every index: the division is not evaluated and no positional bonus is
    added. *)
Theorem empty_profile_scores_zero (sentences : list string) (i : nat) (a : Scored) :
  nth_error (calculateSentenceScores sentences) i = Some a ->
  termsOf (sentence a) = [] ->
  score a = 0%Q.
Proof.
  intros Ha Hterms.
  apply calculateSentenceScores_nth in Ha as (Hs & _ & ->).
  unfold scoreSentence. now rewrite (document_nth _ _ _ Hs), Hterms.
Qed.

End ExtractiveClaims.

(** *** Sentence splitting *)
Section SplitFacts.
Import ExtractiveSummarizer.

Lemma splitRuns_free (p : ascii -> bool) (inRun : bool) (s : string) :
  Forall (noneOf p) (Js.splitRuns p inRun s).
Proof.
  revert inRun. induction s as [|c s IH]; intros inRun; simpl.
  - constructor; [intros c [] | constructor].
  - destruct (p c) eqn:E.
    + destruct inRun; [apply IH|]. constructor; [intros d [] | apply IH].
    + specialize (IH false). destruct (Js.splitRuns p false s) as [|q qs].
      * constructor; [|constructor]. intros d [<-|[]]. exact E.
      * inversion IH as [|? ? Hq Hqs]; subst. constructor; [|exact Hqs].
        intros d [<-|Hd]; [exact E | now apply Hq].
Qed.

Lemma splitIntoSentences_In (text s : string) :
  In s (splitIntoSentences text) <->
  (exists piece, In piece (Js.splitRuns isTerminal false text) /\ s = Js.trim piece) /\
  15 < String.length s /\ 3 < List.length (Js.split " " s).
Proof.
  unfold splitIntoSentences, keepSentence.
  rewrite filter_In, in_map_iff, andb_true_iff, !Nat.ltb_lt.
  split.
  - intros [[piece [<- H]] L]. split; [exists piece; auto | exact L].
  - intros [[piece [H ->]] L]. split; [exists piece; auto | exact L].
Qed.

(** C7.  The text is cut at the runs of terminal punctuation, so that no
    piece holds a terminal character, and the sentences are exactly the
    trimmed pieces with more than 15 characters and more than 3 pieces
    between single spaces. *)
Theorem split_keeps_exactly_the_long_pieces (text : string) :
  Forall (noneOf isTerminal) (Js.splitRuns isTerminal false text) /\
  splitIntoSentences text =
    filter (fun s => (15 <? String.length s) && (3 <? List.length (Js.split " " s)))
           (map Js.trim (Js.splitRuns isTerminal false text)) /\
  forall s, In s (splitIntoSentences text) <->
    (exists piece, In piece (Js.splitRuns isTerminal false text) /\ s = Js.trim piece) /\
    15 < String.length s /\ 3 < List.length (Js.split " " s).
Proof.
  split; [apply splitRuns_free|]. split; [reflexivity|].
  intros s. apply splitIntoSentences_In.
Qed.

(** C7, as the claim words it, fails: a piece of exactly 15 characters and
    four words is not shorter than 15 characters and has more than three
    words, and it is discarded all the same. *)
Lemma piece_of_fifteen_characters_is_discarded :
  splitIntoSentences "aaa bbb ccc ddd. Second sentence has five words here."
    = ["Second sentence has five words here"] /\
  String.length "aaa bbb ccc ddd" = 15 /\
  List.length (Js.split " " "aaa bbb ccc ddd") = 4.
Proof. split; [vm_compute; reflexivity | split; reflexivity]. Qed.

End SplitFacts.

(** ** AISummaryService *)
Section ValidatorFacts.
Import AISummaryService.

Lemma truthy_length (s : string) : Js.truthy s = true <-> 0 < String.length s.
Proof. destruct s; simpl; split; intros H; try lia; try discriminate; reflexivity. Qed.

(** C6.  The validator rejects a candidate exactly when its cleaned form has
    fewer than 20 characters, or at least four fifths of the length of the
    source document, or fewer than 10 pieces between single spaces, or holds
    the word error or failed in any case, or holds the text undefined. *)
Theorem validator_rejects_exactly (summary originalContent : string) :
  let clean := cleanSummary summary in
  isValidSummary summary originalContent = false <->
    String.length clean < 20 \/
    4 * String.length originalContent <= 5 * String.length clean \/
    List.length (Js.split " " clean) < 10 \/
    Js.includes (Js.toLowerCase clean) "error" = true \/
    Js.includes (Js.toLowerCase clean) "failed" = true \/
    Js.includes clean "undefined" = true.
Proof.
  intros clean. unfold isValidSummary, below80Percent. fold clean.
  destruct (Js.truthy clean) eqn:T.
  - destruct (Nat.leb_spec 20 (String.length clean));
    destruct (Nat.ltb_spec (5 * String.length clean) (4 * String.length originalContent));
    destruct (Nat.leb_spec 10 (List.length (Js.split " " clean)));
    destruct (Js.includes (Js.toLowerCase clean) "error");
    destruct (Js.includes (Js.toLowerCase clean) "failed");
    destruct (Js.includes clean "undefined");
    simpl; split; intros H'; try reflexivity; try discriminate; try tauto;
    try (exfalso; intuition (try lia; discriminate)).
  - simpl. split; [intros _ | reflexivity]. left.
    destruct clean; [simpl; lia | discriminate].
Qed.

(** C6, as the claim words it, fails: a candidate that holds the text
    undefined only inside a leading bracket is accepted, because cleaning
    removes the bracket before the validator looks. *)
Lemma bracketed_undefined_is_accepted :
  Js.includes
    "[undefined] The river rose quickly after the heavy rain fell in town."
    "undefined" = true /\
  isValidSummary
    "[undefined] The river rose quickly after the heavy rain fell in town."
    Sample.story = true.
Proof. split; vm_compute; reflexivity. Qed.

End ValidatorFacts.

Section ChainFacts.
Import Async AISummaryService.
Context {N : Natural}.

(** An attempt fails: the provider rejects, or the validator refuses what it
    returned. *)
Lemma tryProviders_cons (content : string) (config : Config.t)
  (name : string) (call : M string) (rest : list (string * M string)) :
  match outcome call with
  | Resolved s => isValidSummary s content = false
  | Rejected _ => True
  end ->
  outcome (tryProviders content config ((name, call) :: rest)) =
  outcome (tryProviders content config rest).
Proof.
  destruct call as [[s|e] t]; simpl; intros H.
  - rewrite H. simpl.
    destruct (tryProviders content config rest) as [r t']. reflexivity.
  - destruct (tryProviders content config rest) as [r t']. reflexivity.
Qed.

Lemma tryProviders_fallback (content : string) (config : Config.t)
  (ps : list (string * M string)) :
  Forall (fun p => match outcome (snd p) with
                   | Resolved s => isValidSummary s content = false
                   | Rejected _ => True
                   end) ps ->
  outcome (tryProviders content config ps) = Resolved (extractiveResult content config).
Proof.
  induction 1 as [|[name call] ps H _ IH]; [reflexivity|].
  rewrite tryProviders_cons; assumption.
Qed.

Lemma splitIntoSentences_long (content s : string) :
  In s (ExtractiveSummarizer.splitIntoSentences content) -> 15 < String.length s.
Proof. intros H. apply splitIntoSentences_In in H. tauto. Qed.

Lemma topSentences_length_any (n : Z) (sentences : list string) :
  List.length (ExtractiveSummarizer.topSentences n sentences) =
  if (0 <=? n)%Z then Nat.min (Z.to_nat n) (List.length sentences)
  else List.length sentences - Z.to_nat (- n).
Proof.
  unfold ExtractiveSummarizer.topSentences, Js.slice0.
  rewrite sort_length.
  destruct (0 <=? n)%Z; rewrite length_firstn, sort_length, calculateSentenceScores_length; lia.
Qed.

Lemma join_empty (pieces : list string) :
  Forall (fun s => 0 < String.length s) pieces ->
  Js.join " " pieces = "" <-> pieces = [].
Proof.
  intros H. split; [|now intros ->].
  destruct pieces as [|x l]; [reflexivity|]. intros E.
  pose proof (join_cons_length " " x l) as Hj. rewrite E in Hj.
  inversion H; subst. simpl in Hj. lia.
Qed.

(** The extractive summary is empty exactly when nothing is selected: no
    sentence is kept, or [maxSentences] is zero, or it is so negative that
    the slice drops every sentence. *)
Lemma generateSummary_empty_iff (content : string) (config : Config.t) :
  let n := Config.orDefault (Config.maxSentences config) 3%Z in
  let kept := Z.of_nat (List.length (ExtractiveSummarizer.splitIntoSentences content)) in
  ExtractiveSummarizer.generateSummary content config = "" <->
  (kept = 0 \/ n = 0 \/ n <= - kept)%Z.
Proof.
  intros n kept. unfold ExtractiveSummarizer.generateSummary. fold n.
  set (sentences := ExtractiveSummarizer.splitIntoSentences content) in *.
  assert (Forall (fun s => 0 < String.length s) sentences) as Hlong.
  { apply Forall_forall. intros s Hs. apply splitIntoSentences_long in Hs. lia. }
  destruct (Z.leb_spec (Z.of_nat (List.length sentences)) n) as [Hle|Hlt].
  - rewrite (join_empty _ Hlong). unfold kept.
    split; [intros ->; now left|]. intros H.
    destruct sentences; [reflexivity | simpl in *; lia].
  - rewrite join_empty.
    + pose proof (topSentences_length_any n sentences) as Hlen.
      destruct (ExtractiveSummarizer.topSentences n sentences) as [|a l] eqn:E.
      * split; [intros _ | reflexivity]. simpl in Hlen. unfold kept.
        destruct (Z.leb_spec 0 n); lia.
      * split; [discriminate|]. intros H. exfalso. simpl in Hlen. unfold kept in H.
        destruct (Z.leb_spec 0 n); lia.
    + apply Forall_map, Forall_forall. intros a Ha.
      apply topSentences_In, calculateSentenceScores_In, nth_error_In in Ha.
      apply splitIntoSentences_long in Ha. lia.
Qed.

End ChainFacts.

Section ChainClaims.
Import Async AISummaryService.
Context {N : Natural}.

(** C1.  When every provider attempt of [generateBestSummary] fails or is
    refused by the validator, the call resolves with the extractive result:
    method extractive, provider extractive, model tf-idf, and the extractive
    summary of the content.  That summary is the empty string exactly when
    the splitter keeps no sentence of the content, or [maxSentences] is
    zero, or [maxSentences] is negative and drops every kept sentence; in
    every other case it is not empty. *)
Theorem fallback_is_extractive (env : Env) (content : string) (config : Config.t) :
  (forall name call, In (name, call) (providers env content config) ->
     match outcome call with
     | Resolved s => isValidSummary s content = false
     | Rejected _ => True
     end) ->
  let n := Config.orDefault (Config.maxSentences config) 3%Z in
  let kept := Z.of_nat (List.length (ExtractiveSummarizer.splitIntoSentences content)) in
  exists result,
    outcome (generateBestSummary env content config) = Resolved result /\
    method result = extractive /\
    provider result = "extractive" /\
    model result = "tf-idf" /\
    summary result = ExtractiveSummarizer.generateSummary content config /\
    (summary result = "" <-> (kept = 0 \/ n = 0 \/ n <= - kept)%Z).
Proof.
  intros H n kept. exists (extractiveResult content config).
  split; [|repeat split].
  - apply tryProviders_fallback, Forall_forall. intros [name call] Hin. now apply (H name).
  - apply generateSummary_empty_iff.
  - apply generateSummary_empty_iff.
Qed.

End ChainClaims.

(** C1, as the claim words it, fails.  With no provider reachable, a
    content without any sentence the splitter keeps gets the empty summary;
    and so does a content with five kept sentences when [maxSentences] is
    zero, or minus five. *)
Lemma fallback_summary_can_be_empty :
  Forall (fun p => exists message, Async.outcome (snd p) = Async.Rejected message)
         (AISummaryService.providers Sample.offline "Too short." Config.empty) /\
  Async.outcome
    (AISummaryService.generateBestSummary (N := Sample.natural) Sample.offline "Too short." Config.empty)
  = Async.Resolved
      {| AISummaryService.summary := "";
         AISummaryService.provider := "extractive";
         AISummaryService.model := "tf-idf";
         AISummaryService.method := AISummaryService.extractive |} /\
  List.length (ExtractiveSummarizer.splitIntoSentences Sample.story) = 5 /\
  Async.outcome
    (SummaryService.summarize (N := Sample.natural) Sample.offline Sample.story (Some 0%Z))
  = Async.Resolved "" /\
  Async.outcome
    (SummaryService.summarize (N := Sample.natural) Sample.offline Sample.story (Some (-5)%Z))
  = Async.Resolved "".
Proof.
  split; [|split; [|split; [|split]]]; try (vm_compute; reflexivity).
  repeat constructor; eexists; vm_compute; reflexivity.
Qed.

Lemma fallback_is_extractive_witness :
  exists result,
    Async.outcome
      (AISummaryService.generateBestSummary (N := Sample.natural) Sample.refusing Sample.story Config.empty)
      = Async.Resolved result /\
    AISummaryService.method result = AISummaryService.extractive /\
    AISummaryService.provider result = "extractive" /\
    AISummaryService.model result = "tf-idf" /\
    AISummaryService.summary result
      = ExtractiveSummarizer.generateSummary (N := Sample.natural) Sample.story Config.empty /\
    (AISummaryService.summary result = "" <->
     (Z.of_nat (List.length (ExtractiveSummarizer.splitIntoSentences Sample.story)) = 0 \/
      Config.orDefault (Config.maxSentences Config.empty) 3 = 0 \/
      Config.orDefault (Config.maxSentences Config.empty) 3
        <= - Z.of_nat (List.length (ExtractiveSummarizer.splitIntoSentences Sample.story)))%Z).
Proof.
  apply (fallback_is_extractive (N := Sample.natural) Sample.refusing Sample.story Config.empty).
  intros name call [H|[H|[H|[H|[]]]]]; inversion H; subst; vm_compute;
    first [exact I | reflexivity].
Defined.

Section ServiceClaims.
Import Async.
Context {N : Natural}.

(** C9.  An existing summary whose trimmed value is not empty is returned
    trimmed, marked as not generated and as provided by the user; the trace
    is empty: no provider is called and the validator is not run. *)
Theorem existing_summary_passes_through
  (env : AISummaryService.Env) (content existingSummary : string) :
  Js.trim existingSummary <> "" ->
  SummaryService.generateSummaryForArticle env content (Some existingSummary) =
  (Resolved {| SummaryService.summary := Js.trim existingSummary;
               SummaryService.generated := false;
               SummaryService.provider := "user-provided";
               SummaryService.model := "none";
               SummaryService.method := AISummaryService.extractive |},
   []).
Proof.
  intros H. unfold SummaryService.generateSummaryForArticle. simpl.
  assert (Js.truthy (Js.trim existingSummary) = true) as ->
    by (destruct (Js.trim existingSummary); [congruence | reflexivity]).
  assert (Js.truthy existingSummary = true) as ->
    by (destruct existingSummary; [now elim H | reflexivity]).
  reflexivity.
Qed.

End ServiceClaims.

Lemma existing_summary_passes_through_witness :
  SummaryService.generateSummaryForArticle (N := Sample.natural) Sample.offline
    Sample.story (Some "  Flood in a small town. ") =
  (Async.Resolved
     {| SummaryService.summary := Js.trim "  Flood in a small town. ";
        SummaryService.generated := false;
        SummaryService.provider := "user-provided";
        SummaryService.model := "none";
        SummaryService.method := AISummaryService.extractive |},
   []).
Proof.
  apply (existing_summary_passes_through (N := Sample.natural)).
  vm_compute. discriminate.
Defined.

(** *** The extractive claims on sample texts *)

Lemma summary_in_original_order_witness :
  exists selected : list ExtractiveSummarizer.Scored,
    ExtractiveSummarizer.generateSummary (N := Sample.natural) Sample.story Config.empty
      = Js.join " " (map ExtractiveSummarizer.sentence selected) /\
    List.length selected = Z.to_nat 3 /\
    StronglySorted
      (fun a b => ExtractiveSummarizer.index a <= ExtractiveSummarizer.index b) selected /\
    Forall (fun a => nth_error (ExtractiveSummarizer.splitIntoSentences Sample.story)
                       (ExtractiveSummarizer.index a)
                     = Some (ExtractiveSummarizer.sentence a)) selected.
Proof.
  apply (summary_in_original_order (N := Sample.natural) Sample.story Config.empty).
  vm_compute. split; [discriminate | reflexivity].
Defined.


Lemma empty_profile_scores_zero_witness :
  exists a,
    nth_error (ExtractiveSummarizer.calculateSentenceScores (N := Sample.natural)
                 ["it is to be or at an of"; "Heavy rain flooded the town"]) 0 = Some a /\
    ExtractiveSummarizer.score a = 0%Q.
Proof.
  eexists. split; [reflexivity|].
  apply (empty_profile_scores_zero (N := Sample.natural)
           ["it is to be or at an of"; "Heavy rain flooded the town"] 0).
  - reflexivity.
  - reflexivity.
Defined.

(** ** RecommendationService *)
Section NumberFacts.

Lemma Qnat_nonneg (n : nat) : (0 <= Qnat n)%Q.
Proof. unfold Qnat, Qle. simpl. lia. Qed.

Lemma Qnat_pos (n : nat) : 0 < n -> (0 < Qnat n)%Q.
Proof. unfold Qnat, Qlt. simpl. lia. Qed.

Lemma Qnat_le (m n : nat) : m <= n -> (Qnat m <= Qnat n)%Q.
Proof. unfold Qnat, Qle. simpl. lia. Qed.

Lemma Qnat_S (n : nat) : (Qnat (S n) == Qnat n + 1)%Q.
Proof. unfold Qnat, Qeq, Qplus. simpl. lia. Qed.

Lemma min_spec (a b : Q) :
  (a <= b /\ Js.min a b = a)%Q \/ (b < a /\ Js.min a b = b)%Q.
Proof.
  unfold Js.min. destruct (Qle_bool a b) eqn:E.
  - left. split; [now apply Qle_bool_iff | reflexivity].
  - right. split; [|reflexivity].
    apply Qnot_le_lt. intros H. apply Qle_bool_iff in H. congruence.
Qed.

Lemma min_bounds (a b : Q) : (0 <= a -> 0 <= b -> 0 <= Js.min a b <= b)%Q.
Proof.
  intros Ha Hb. destruct (min_spec a b) as [[H ->]|[H ->]]; split; try assumption.
  apply Qle_refl.
Qed.

Lemma min_comp (a a' b : Q) : (a == a' -> Js.min a b == Js.min a' b)%Q.
Proof.
  intros H.
  destruct (min_spec a b) as [[H1 ->]|[H1 ->]], (min_spec a' b) as [[H2 ->]|[H2 ->]];
    lra.
Qed.

Lemma ratio_bounds (m n : nat) : m <= n -> 0 < n -> (0 <= Qnat m / Qnat n <= 1)%Q.
Proof.
  intros Hmn Hn. pose proof (Qnat_pos n Hn) as Hp.
  pose proof (Qnat_nonneg m) as Hm. pose proof (Qnat_le m n Hmn) as Hle.
  split.
  - apply Qle_shift_div_l; [assumption | lra].
  - apply Qle_shift_div_r; [assumption | lra].
Qed.

Lemma sum_bounds (l : list Q) (a : Q) :
  Forall (fun q => 0 <= q <= 1)%Q l ->
  (a <= fold_left Qplus l a <= a + Qnat (List.length l))%Q.
Proof.
  intros H. revert a. induction H as [|q l [Hq0 Hq1] _ IH]; intros a.
  - simpl. change (Qnat 0) with 0%Q. lra.
  - cbn [fold_left List.length]. specialize (IH (a + q)%Q).
    pose proof (Qnat_S (List.length l)) as HS. lra.
Qed.

Lemma average_bounds (l : list Q) :
  Forall (fun q => 0 <= q <= 1)%Q l -> 0 < List.length l ->
  (0 <= fold_left Qplus l 0 / Qnat (List.length l) <= 1)%Q.
Proof.
  intros H Hn. pose proof (sum_bounds l 0 H) as [H0 H1].
  pose proof (Qnat_pos _ Hn) as Hp. split.
  - apply Qle_shift_div_l; [assumption | lra].
  - apply Qle_shift_div_r; [assumption | lra].
Qed.

End NumberFacts.

Section ScoreFacts.
Import RecommendationService.

Lemma calculateInterestScore_bounds (userInterests articleTags : list string) :
  (0 <= calculateInterestScore userInterests articleTags <= 1)%Q.
Proof.
  unfold calculateInterestScore.
  destruct (List.length userInterests =? 0) eqn:E; simpl; [lra|].
  destruct (List.length articleTags =? 0); [lra|].
  apply Nat.eqb_neq in E. apply ratio_bounds; [apply filter_length_le | lia].
Qed.

Lemma calculatePopularityScore_bounds (store : Store) (articleId : ObjectId) :
  (0 <= calculatePopularityScore store articleId <= 1)%Q.
Proof.
  unfold calculatePopularityScore. apply min_bounds; [|lra].
  apply Qle_shift_div_l; [lra|].
  pose proof (Qnat_nonneg (totalScore (interactionCounts store articleId))). lra.
Qed.

Lemma calculateFreshnessScore_bounds (now createdAt : Z) :
  (2 # 10 <= calculateFreshnessScore now createdAt <= 1)%Q.
Proof.
  unfold calculateFreshnessScore.
  repeat match goal with |- context [Qle_bool ?a ?b] => destruct (Qle_bool a b) end; lra.
Qed.

Lemma limit_positive {A} (n : nat) (l : list A) :
  0 < n -> Mongo.limit n l = firstn n l.
Proof. unfold Mongo.limit. destruct n; [lia | reflexivity]. Qed.

Lemma authorArticles_length (store : Store) (author : string) :
  List.length (authorArticles store author) <= 10.
Proof.
  unfold authorArticles. rewrite limit_positive by lia. apply firstn_le_length.
Qed.

Lemma authorArticles_In (store : Store) (author : string) (a : Article.t) :
  In a (authorArticles store author) ->
  In a (articles store) /\ Article.author a = author.
Proof.
  unfold authorArticles. rewrite limit_positive by lia. intros H.
  apply firstn_incl, filter_In in H as [H E].
  split; [exact H | now apply String.eqb_eq].
Qed.

Lemma authorArticles_nonempty (store : Store) (article : Article.t) :
  In article (articles store) ->
  0 < List.length (authorArticles store (Article.author article)).
Proof.
  intros H. unfold authorArticles. rewrite limit_positive by lia.
  assert (In article (filter (fun a => String.eqb (Article.author a) (Article.author article))
                             (articles store))) as Hin
    by (apply filter_In; split; [exact H | apply String.eqb_refl]).
  destruct (filter _ (articles store)); [destruct Hin | simpl; lia].
Qed.

Lemma calculateAuthorScore_bounds (store : Store) (author : string) :
  (0 <= calculateAuthorScore store author <= 1)%Q.
Proof.
  unfold calculateAuthorScore.
  destruct (List.length (authorArticles store author) =? 0) eqn:E; [lra|].
  apply Nat.eqb_neq in E. apply average_bounds.
  - apply Forall_map, Forall_forall. intros a _. apply calculatePopularityScore_bounds.
  - rewrite length_map. lia.
Qed.

Lemma roundScore_bounds (score : Q) :
  (0 <= score <= 1)%Q ->
  exists k : Z,
    (0 <= k <= 100)%Z /\
    (RecommendationController.roundScore score == k # 100)%Q /\
    (score - (1 # 200) <= RecommendationController.roundScore score <= score + (1 # 200))%Q.
Proof.
  intros [H0 H1]. unfold RecommendationController.roundScore, Js.round.
  set (x := (score * 100 + (1 # 2))%Q).
  pose proof (Qfloor_le x) as Hlo. pose proof (Qlt_floor x) as Hhi.
  assert (0 <= Qfloor x)%Z as Hk0.
  { change 0%Z with (Qfloor 0). apply Qfloor_resp_le. unfold x. lra. }
  assert (Qfloor x <= 100)%Z as Hk1.
  { change 100%Z with (Qfloor (100 + (1 # 2))). apply Qfloor_resp_le. unfold x. lra. }
  exists (Qfloor x). split; [lia|]. split.
  - unfold Qdiv, Qmult, Qinv, Qeq, inject_Z. simpl. lia.
  - assert (inject_Z (Qfloor x + 1) == inject_Z (Qfloor x) + 1)%Q as E
      by (rewrite inject_Z_plus; reflexivity).
    rewrite E in Hhi. clear E Hk0 Hk1.
    remember (inject_Z (Qfloor x)) as q eqn:Eq. clear Eq. unfold x in Hlo, Hhi.
    split.
    + apply Qle_shift_div_l; lra.
    + apply Qle_shift_div_r; lra.
Qed.

End ScoreFacts.

Section RecommendationClaims.
Import RecommendationService.

(** C4.  The score of a recommendation is the weighted sum
    0.4 interest + 0.3 popularity + 0.2 freshness + 0.1 author capped at 1,
    and it lies between 0 and 1.  The controller shows it rounded to two
    decimals: a whole number of hundredths between 0 and 1, at most half a
    hundredth away from the score. *)
Theorem recommendation_score_in_unit_interval
  (store : Store) (now : Z) (user : User.t) (article : Article.t) :
  let tags := Config.orDefault (Article.tags article) [] in
  let combined :=
    ((4 # 10) * calculateInterestScore (User.interests user) tags
     + (3 # 10) * calculatePopularityScore store (Article._id article)
     + (2 # 10) * calculateFreshnessScore now (Article.createdAt article)
     + (1 # 10) * calculateAuthorScore store (Article.author article))%Q in
  let r := calculateRecommendationScore store now user article in
  let shown := RecommendationController.score (RecommendationController.format r) in
  (score r == Js.min combined 1)%Q /\
  (0 <= score r <= 1)%Q /\
  exists k : Z,
    (0 <= k <= 100)%Z /\ (shown == k # 100)%Q /\
    (score r - (1 # 200) <= shown <= score r + (1 # 200))%Q.
Proof.
  intros tags combined r shown.
  pose proof (calculateInterestScore_bounds (User.interests user) tags) as Hi.
  pose proof (calculatePopularityScore_bounds store (Article._id article)) as Hp.
  pose proof (calculateFreshnessScore_bounds now (Article.createdAt article)) as Hf.
  pose proof (calculateAuthorScore_bounds store (Article.author article)) as Ha.
  assert (score r == Js.min combined 1)%Q as E.
  { unfold r, calculateRecommendationScore. cbn [score]. fold tags.
    apply min_comp. unfold combined. ring. }
  assert (0 <= score r <= 1)%Q as B.
  { rewrite E. apply min_bounds; [unfold combined | ]; lra. }
  split; [exact E|]. split; [exact B|].
  apply roundScore_bounds, B.
Qed.

(** C3.  The author signal is computed over the first ten stored articles
    of the author, in the natural order of the collection.  That list is
    empty exactly when no stored article has the author, and then the signal
    is the neutral one half.  For the author of a stored article, the
    candidate included, the signal is the average popularity over that list
    and lies between 0 and 1. *)
Theorem author_score_averages_stored_articles (store : Store) (author : string) :
  let mine := authorArticles store author in
  mine = firstn 10 (filter (fun a => String.eqb (Article.author a) author) (articles store)) /\
  (mine = [] <-> forall a, In a (articles store) -> Article.author a <> author) /\
  (mine = [] -> calculateAuthorScore store author = (1 # 2)%Q) /\
  (forall article, In article (articles store) -> Article.author article = author ->
   0 < List.length mine <= 10 /\
   calculateAuthorScore store author =
     (fold_left Qplus (map (fun a => calculatePopularityScore store (Article._id a)) mine) 0
      / Qnat (List.length mine))%Q /\
   (0 <= calculateAuthorScore store author <= 1)%Q).
Proof.
  intros mine. split; [|split; [|split]].
  - unfold mine, authorArticles. now rewrite limit_positive by lia.
  - split.
    + intros E a Hin <-. pose proof (authorArticles_nonempty store a Hin) as H.
      fold mine in H. rewrite E in H. simpl in H. lia.
    + intros Hnone. destruct mine as [|a l] eqn:E; [reflexivity|]. exfalso.
      destruct (authorArticles_In store author a) as [Hin Ha];
        [fold mine; rewrite E; now left | now apply (Hnone a)].
  - intros E. unfold calculateAuthorScore. fold mine. now rewrite E.
  - intros article Hin <-.
    pose proof (authorArticles_nonempty store article Hin) as Hpos.
    pose proof (authorArticles_length store (Article.author article)) as Hmax.
    fold mine in Hpos, Hmax. split; [lia|]. split.
    + unfold calculateAuthorScore. fold mine.
      destruct (Nat.eqb_spec (List.length mine) 0); [lia|].
      now rewrite length_map.
    + apply calculateAuthorScore_bounds.
Qed.

End RecommendationClaims.

(** C3, as the claim words it, fails in two ways.  The only article of its
    author, with no interaction, gives the author signal 0 and not one half.
    And of eleven articles of one author the signal averages the ten stored
    first, here 0, where the ten most recent ones average 0.06. *)
Lemma author_score_counts_the_candidate_and_ignores_dates :
  filter (fun a => String.eqb (Article.author a) "ann") (articles Sample.quiet)
    = [Sample.articleA] /\
  (RecommendationService.calculateAuthorScore Sample.quiet "ann" == 0)%Q /\
  List.length (filter (fun a => String.eqb (Article.author a) "ann")
                      (articles Sample.prolific)) = 11 /\
  (RecommendationService.calculateAuthorScore Sample.prolific "ann" == 0)%Q /\
  (fold_left Qplus
     (map (fun a => RecommendationService.calculatePopularityScore Sample.prolific
                      (Article._id a))
          (firstn 10
             (Js.sort (fun a b => inject_Z (Article.createdAt b - Article.createdAt a))
                (filter (fun a => String.eqb (Article.author a) "ann")
                        (articles Sample.prolific))))) 0
   / Qnat 10 == 6 # 100)%Q.
Proof. repeat split; vm_compute; reflexivity. Qed.

Lemma author_score_averages_stored_articles_witness :
  0 < List.length (RecommendationService.authorArticles Sample.prolific "ann") <= 10 /\
  RecommendationService.calculateAuthorScore Sample.prolific "ann" =
    (fold_left Qplus
       (map (fun a => RecommendationService.calculatePopularityScore Sample.prolific
                        (Article._id a))
            (RecommendationService.authorArticles Sample.prolific "ann")) 0
     / Qnat (List.length (RecommendationService.authorArticles Sample.prolific "ann")))%Q /\
  (0 <= RecommendationService.calculateAuthorScore Sample.prolific "ann" <= 1)%Q.
Proof.
  apply (proj2 (proj2 (proj2 (author_score_averages_stored_articles Sample.prolific "ann")))
           {| Article._id := 11; Article.author := "ann"; Article.tags := None;
              Article.createdAt := 11000%Z |}).
  - simpl. tauto.
  - reflexivity.
Defined.

(** C2.  The trending list of the service ranks by likes first: with one
    like on article A and two shares on article B, a limit of one returns A,
    while the ranking by engagement of the model's static returns B. *)
Lemma trending_service_ranks_by_likes_first :
  RecommendationService.getTrendingArticles Sample.store 10000%Z 1
    = Async.Resolved [Sample.articleA] /\
  InteractionSchema.getTrendingArticles Sample.store 10000%Z 24%Z 1
    = Async.Resolved
        [ {| InteractionSchema.article := Sample.articleB;
             InteractionSchema.trendingStats :=
               {| InteractionSchema.totalInteractions := 2;
                  InteractionSchema.likes := 0;
                  InteractionSchema.shares := 2;
                  InteractionSchema.comments := 0;
                  InteractionSchema.views := 0;
                  InteractionSchema.engagementScore := 10 |} |} ].
Proof. split; vm_compute; reflexivity. Qed.

(* ================================================================== *)
(** * Part III. Further properties of the code                         *)
(* ================================================================== *)

(** ** The provider chain *)
Section ChainMore.
Import Async AISummaryService.
Context {N : Natural}.

Lemma tryProviders_result (content : string) (config : Config.t)
  (ps : list (string * M string)) :
  exists r,
    outcome (tryProviders content config ps) = Resolved r /\
    (r = extractiveResult content config \/
     (method r = ai /\
      model r = (let m := Config.orDefault (Config.model config) "" in
                 if Js.truthy m then m else "default") /\
      isValidSummary (summary r) content = true /\
      In (Validated (summary r)) (trace (tryProviders content config ps)) /\
      exists call, In (provider r, call) ps /\ outcome call = Resolved (summary r))).
Proof.
  induction ps as [|[name call] ps (r & Hr & IH)].
  - exists (extractiveResult content config). split; [reflexivity | now left].
  - destruct call as [[s|e] t] eqn:Ecall; cbn - [isValidSummary].
    + destruct (isValidSummary s content) eqn:V; cbn - [isValidSummary].
      * eexists. split; [reflexivity|]. right. cbn - [isValidSummary].
        repeat split; try assumption.
        -- rewrite !in_app_iff. simpl. tauto.
        -- eexists. split; [left; reflexivity | reflexivity].
      * destruct (tryProviders content config ps) as [o t'] eqn:E.
        cbn in *. exists r. split; [exact Hr|].
        destruct IH as [IH|(Hm & Hmod & Hv & Hin & c & Hc & Ho)]; [now left | right].
        repeat split; try assumption.
        -- rewrite !in_app_iff. simpl. tauto.
        -- exists c. split; [now right | exact Ho].
    + destruct (tryProviders content config ps) as [o t'] eqn:E.
      cbn in *. exists r. split; [exact Hr|].
      destruct IH as [IH|(Hm & Hmod & Hv & Hin & c & Hc & Ho)]; [now left | right].
      repeat split; try assumption.
      -- rewrite !in_app_iff. simpl. tauto.
      -- exists c. split; [now right | exact Ho].
Qed.

(** X1.  Summary generation never fails: whatever the providers answer,
    [generateBestSummary] resolves, and so do the two entry points of
    [SummaryService] built on it. *)
Theorem summary_generation_never_rejects
  (env : Env) (content : string) (config : Config.t)
  (existingSummary : option string) (maxSentences : option Z) :
  (exists r, outcome (generateBestSummary env content config) = Resolved r) /\
  (exists a, outcome (SummaryService.generateSummaryForArticle env content existingSummary)
             = Resolved a) /\
  (exists s, outcome (SummaryService.summarize env content maxSentences) = Resolved s).
Proof.
  assert (forall config, exists r t, generateBestSummary env content config = (Resolved r, t)) as G.
  { intros c. unfold generateBestSummary.
    destruct (tryProviders_result content c (providers env content c)) as (r & Hr & _).
    destruct (tryProviders content c (providers env content c)) as [o t].
    exists r, t. simpl in Hr. now rewrite Hr. }
  split; [|split].
  - destruct (G config) as (r & t & E). exists r. now rewrite E.
  - unfold SummaryService.generateSummaryForArticle.
    destruct (_ && _); [eexists; reflexivity|].
    match goal with |- context [generateBestSummary env content ?c] =>
      destruct (G c) as (r & t & E); rewrite E end.
    eexists. reflexivity.
  - unfold SummaryService.summarize.
    match goal with |- context [generateBestSummary env content ?c] =>
      destruct (G c) as (r & t & E); rewrite E end.
    eexists. reflexivity.
Qed.

(** X2.  A result marked as AI has passed the validator: its summary is what one
    of the four providers returned, the validator was run on it and accepted
    it, and the model reported is the configured one or the word default. *)
Theorem ai_result_was_validated
  (env : Env) (content : string) (config : Config.t) (r : BestSummary) :
  outcome (generateBestSummary env content config) = Resolved r ->
  method r = ai ->
  isValidSummary (summary r) content = true /\
  In (Validated (summary r)) (trace (generateBestSummary env content config)) /\
  In (provider r) ["ollama"; "cohere"; "huggingface"; "openai"] /\
  model r = match Config.model config with
            | Some (String c m) => String c m
            | _ => "default"
            end.
Proof.
  intros Hr Hm. unfold generateBestSummary in *.
  destruct (tryProviders_result content config (providers env content config))
    as (r' & Hr' & H).
  rewrite Hr in Hr'. inversion Hr'; subst r'. clear Hr'.
  destruct H as [->|(_ & Hmod & Hv & Hin & call & Hc & _)]; [discriminate Hm|].
  repeat split; try assumption.
  - unfold providers in Hc. simpl in Hc.
    destruct Hc as [Hc|[Hc|[Hc|[Hc|[]]]]]; inversion Hc; simpl; tauto.
  - rewrite Hmod. destruct (Config.model config) as [[|c m]|]; reflexivity.
Qed.

End ChainMore.

Lemma ai_result_was_validated_witness :
  AISummaryService.isValidSummary
    "Heavy rain flooded a small town and volunteers worked all night long."
    Sample.story = true /\
  In (Async.Validated "Heavy rain flooded a small town and volunteers worked all night long.")
     (Async.trace
        (AISummaryService.generateBestSummary (N := Sample.natural)
           (Sample.answering "Heavy rain flooded a small town and volunteers worked all night long.")
           Sample.story Config.empty)) /\
  In "ollama" ["ollama"; "cohere"; "huggingface"; "openai"] /\
  "default" = match Config.model Config.empty with
              | Some (String c m) => String c m
              | _ => "default"
              end.
Proof.
  apply (ai_result_was_validated (N := Sample.natural)
           (Sample.answering "Heavy rain flooded a small town and volunteers worked all night long.")
           Sample.story Config.empty
           {| AISummaryService.summary :=
                "Heavy rain flooded a small town and volunteers worked all night long.";
              AISummaryService.provider := "ollama";
              AISummaryService.model := "default";
              AISummaryService.method := AISummaryService.ai |}).
  - vm_compute. reflexivity.
  - reflexivity.
Defined.

Section RequestFacts.
Import Async AISummaryService.

Lemma post_trace (env : Env) (url model text : string) :
  trace (post env url model text) = [Post url model].
Proof. unfold post. simpl. destruct (respond env url model text); reflexivity. Qed.

Lemma checked_spec (invalid : string) (field : option string) :
  trace (checked invalid field) = [] /\
  match outcome (checked invalid field) with
  | Resolved s =>
      exists text, field = Some text /\
                   10 <= String.length (Js.trim text) /\
                   s = cleanSummary (Js.trim text)
  | Rejected message => message = invalid
  end.
Proof.
  unfold checked. destruct field as [text|]; [|split; reflexivity].
  destruct (Js.truthy (Js.trim text)) eqn:T; simpl; [|split; reflexivity].
  destruct (Nat.ltb_spec (String.length (Js.trim text)) 10); simpl;
    split; try reflexivity.
  exists text. repeat split. assumption.
Qed.

(** One guarded request: [try { post; check } catch (e) { throw prefix + e }]. *)
Lemma request_spec (env : Env) (url model text invalid prefix : string) :
  let call :=
    tryCatch (field <- post env url model text ;; checked invalid field)
             (fun error => throw (prefix ++ error)%string) in
  trace call = [Post url model] /\
  match outcome call with
  | Resolved s =>
      exists answer, respond env url model text = Body (Some answer) /\
                     10 <= String.length (Js.trim answer) /\
                     s = cleanSummary (Js.trim answer)
  | Rejected message => exists error, message = (prefix ++ error)%string
  end.
Proof.
  unfold post. simpl.
  destruct (respond env url model text) as [message|field]; simpl.
  - split; [reflexivity | now exists message].
  - destruct (checked_spec invalid field) as [Ht Ho].
    destruct (checked invalid field) as [[s|e] t]; simpl in *; subst t.
    + split; [reflexivity|]. destruct Ho as (answer & -> & Hlen & ->).
      exists answer. auto.
    + split; [reflexivity | now exists e].
Qed.

End RequestFacts.

Section TraceClaims.
Import Async AISummaryService.
Context {N : Natural}.

(** X3.  [generateOllamaSummary] always sends exactly one request, to the generate
    endpoint of the configured base URL.  When it resolves, the result is
    the cleaned form of a trimmed answer of at least 10 characters; when it
    rejects, the message starts with the provider's error prefix. *)
Theorem ollama_sends_one_request (env : Env) (content : string) (config : Config.t) :
  let call := generateOllamaSummary env content config in
  trace call = [Post (ollamaBaseUrl env ++ "/api/generate")
                     (Config.orDefault (Config.model config) "llama2")] /\
  match outcome call with
  | Resolved s =>
      exists answer, 10 <= String.length (Js.trim answer) /\
                     s = cleanSummary (Js.trim answer)
  | Rejected message => exists error, message = ("Ollama error: " ++ error)%string
  end.
Proof.
  unfold generateOllamaSummary.
  match goal with |- context [post env ?u ?m ?t] =>
    pose proof (request_spec env u m t "Invalid response from Ollama" "Ollama error: ") as H
  end.
  cbv zeta in *. destruct H as [Ht Ho]. split; [exact Ht|].
  match goal with |- match outcome ?c with _ => _ end => destruct (outcome c) end.
  - destruct Ho as (answer & _ & Hlen & ->). exists answer. auto.
  - exact Ho.
Qed.

Lemma tryProviders_trace_head (content : string) (config : Config.t)
  (name : string) (call : M string) (ps : list (string * M string)) :
  exists rest,
    trace (tryProviders content config ((name, call) :: ps)) = trace call ++ rest.
Proof.
  destruct call as [[s|e] t]; cbn - [isValidSummary].
  - destruct (isValidSummary s content); cbn - [isValidSummary].
    + eexists. rewrite <- !app_assoc. reflexivity.
    + destruct (tryProviders content config ps) as [o t']. cbn.
      eexists. rewrite <- !app_assoc. reflexivity.
  - destruct (tryProviders content config ps) as [o t']. cbn.
    eexists. rewrite <- !app_assoc. reflexivity.
Qed.

(** X4.  Ollama is always asked first, and always with the model llama2: the
    model of the configuration never reaches it. *)
Theorem ollama_is_asked_first_with_llama2
  (env : Env) (content : string) (config : Config.t) :
  exists rest,
    trace (generateBestSummary env content config) =
    Post (ollamaBaseUrl env ++ "/api/generate") "llama2" :: rest.
Proof.
  unfold generateBestSummary, providers.
  match goal with |- context [tryProviders _ _ ((?n, ?c) :: ?ps)] =>
    destruct (tryProviders_trace_head content config n c ps) as [rest ->];
    destruct (ollama_sends_one_request env content (Config.withModel config "llama2"))
      as [-> _]
  end.
  exists rest. reflexivity.
Qed.

(** X5.  With no API key configured, one summary costs exactly one request, the
    one to Ollama: Cohere, HuggingFace and OpenAI are never contacted. *)
Theorem without_keys_only_ollama_is_contacted
  (env : Env) (content : string) (config : Config.t) :
  cohereApiKey env = "" ->
  huggingFaceApiKey env = "" ->
  openAIApiKey env = "" ->
  requests (trace (generateBestSummary env content config)) =
  [Post (ollamaBaseUrl env ++ "/api/generate") "llama2"].
Proof.
  intros Hc Hh Ho.
  unfold generateBestSummary, providers, generateCohereSummary,
    generateHuggingFaceSummary, generateOpenAISummary.
  rewrite Hc, Hh, Ho. cbn [Js.truthy negb].
  destruct (ollama_sends_one_request env content (Config.withModel config "llama2"))
    as [Ht _]. cbv zeta in Ht.
  destruct (generateOllamaSummary env content (Config.withModel config "llama2"))
    as [[s|e] t]; cbn in Ht; subst t; cbn - [isValidSummary].
  - destruct (isValidSummary s content); reflexivity.
  - reflexivity.
Qed.

End TraceClaims.

Lemma without_keys_only_ollama_is_contacted_witness :
  requests (Async.trace (AISummaryService.generateBestSummary (N := Sample.natural)
                           Sample.offline Sample.story Config.empty)) =
  [Async.Post (AISummaryService.ollamaBaseUrl Sample.offline ++ "/api/generate") "llama2"].
Proof.
  apply (without_keys_only_ollama_is_contacted (N := Sample.natural)
           Sample.offline Sample.story Config.empty); reflexivity.
Defined.

(** ** HuggingFace models and content truncation *)
Section HuggingFaceClaims.
Import Async AISummaryService.

Lemma tryModels_spec (env : Env) (content : string) (models : list string) :
  models <> [] ->
  exists tried rest,
    models = tried ++ rest /\ tried <> [] /\
    trace (tryModels env content models) = map huggingFaceRequest tried /\
    match outcome (tryModels env content models) with
    | Resolved _ => True
    | Rejected message =>
        rest = [] /\ exists error, message = ("HuggingFace error: " ++ error)%string
    end.
Proof.
  induction models as [|m models IH]; [congruence | intros _].
  cbn [tryModels].
  match goal with |- context [bind (post env ?u ?mo ?t) ?k] =>
    pose proof (post_trace env u mo t) as Hp;
    destruct (post env u mo t) as [[field|e] tp] eqn:Ep
  end; cbn in Hp; subst tp; cbn [bind].
  - destruct (checked_spec ("Invalid summary from " ++ m) field) as [Hc _].
    destruct (checked ("Invalid summary from " ++ m) field) as [[s|e] tc];
      cbn in Hc; subst tc; cbn.
    + exists [m], models. repeat split. discriminate.
    + destruct models as [|m' models'].
      * exists [m], []. repeat split; [discriminate | now exists e].
      * destruct IH as (tried & rest & E & _ & Ht & Ho); [discriminate|].
        destruct (tryModels env content (m' :: models')) as [o t]. cbn in *.
        exists (m :: tried), rest. rewrite E, Ht. repeat split; [discriminate | exact Ho].
  - destruct models as [|m' models'].
    + exists [m], []. repeat split; [discriminate | now exists e].
    + destruct IH as (tried & rest & E & _ & Ht & Ho); [discriminate|].
      destruct (tryModels env content (m' :: models')) as [o t]. cbn in *.
      exists (m :: tried), rest. rewrite E, Ht. repeat split; [discriminate | exact Ho].
Qed.

(** X6.  The list of models to try always holds exactly the two free models,
    each once, whatever model is asked for; a free model that is asked for
    comes first. *)
Theorem modelsToTry_are_the_free_models (model : string) :
  Permutation (modelsToTry model) freeModels /\
  NoDup (modelsToTry model) /\
  hd_error (modelsToTry model) =
    Some (if existsb (String.eqb model) freeModels then model
          else "sshleifer/distilbart-cnn-12-6").
Proof.
  unfold modelsToTry, freeModels. cbn [existsb filter].
  destruct (String.eqb_spec model "sshleifer/distilbart-cnn-12-6") as [->|H1].
  - cbn. repeat split; [reflexivity|].
    repeat constructor; simpl; intuition discriminate.
  - destruct (String.eqb_spec model "t5-small") as [->|H2].
    + cbn. repeat split; [apply perm_swap|].
      repeat constructor; simpl; intuition discriminate.
    + cbn. repeat split; [reflexivity|].
      repeat constructor; simpl; intuition discriminate.
Qed.

(** X7.  [generateHuggingFaceSummary] sends its requests to free models only, at
    most one to each and at most two in all, in the order of [modelsToTry],
    and none without an API key.  When it rejects, the message is that of
    the missing key or carries the provider's error prefix: the final
    message for all models having failed is never used. *)
Theorem huggingface_tries_only_free_models
  (env : Env) (content : string) (config : Config.t) :
  let call := generateHuggingFaceSummary env content config in
  let model := Config.orDefault (Config.model config) "sshleifer/distilbart-cnn-12-6" in
  exists tried rest,
    modelsToTry model = tried ++ rest /\
    trace call = map huggingFaceRequest tried /\
    List.length tried <= 2 /\
    NoDup tried /\
    Forall (fun m => In m freeModels) tried /\
    (huggingFaceApiKey env = "" -> tried = []) /\
    match outcome call with
    | Resolved _ => True
    | Rejected message =>
        message = "HuggingFace API key not available" \/
        exists error, message = ("HuggingFace error: " ++ error)%string
    end.
Proof.
  intros call model. unfold call, generateHuggingFaceSummary. fold model.
  destruct (modelsToTry_are_the_free_models model) as (Hperm & Hnd & _).
  destruct (Js.truthy (huggingFaceApiKey env)) eqn:K; cbn [negb].
  - destruct (tryModels_spec env content (modelsToTry model)) as (tried & rest & E & _ & Ht & Ho).
    { intros E. rewrite E in Hperm. apply Permutation_nil in Hperm. discriminate. }
    exists tried, rest. split; [exact E|]. split; [exact Ht|].
    assert (List.length tried <= 2) as Hlen.
    { apply Permutation_length in Hperm. rewrite E, length_app in Hperm. simpl in Hperm. lia. }
    split; [exact Hlen|]. rewrite E in Hnd. split; [eapply NoDup_app_remove_r, Hnd|].
    split.
    + apply Forall_forall. intros m Hm. eapply Permutation_in; [exact Hperm|].
      rewrite E. apply in_or_app. now left.
    + split.
      * intros Hk. rewrite Hk in K. discriminate.
      * destruct (outcome (tryModels env content (modelsToTry model))); [exact I|].
        right. tauto.
  - exists [], (modelsToTry model). repeat split; try constructor; simpl; try lia.
    reflexivity.
Qed.



End HuggingFaceClaims.

(** ** Provider status *)
Section StatusClaims.
Import Async AISummaryService.

Lemma probe_resolves (call : M string) (model : string) :
  exists a, probe call model = (Resolved a, trace call) /\
            (available a = true <-> exists s, outcome call = Resolved s).
Proof.
  destruct call as [[s|e] t]; unfold probe; cbn.
  - eexists. split; [rewrite app_nil_r; reflexivity|]. cbn. split; eauto.
  - eexists. split; [rewrite app_nil_r; reflexivity|]. cbn.
    split; [discriminate | intros [s H]; discriminate].
Qed.

Lemma keyed_resolves (key : string) (call : M string) (model : string) :
  exists a, keyed key call model =
            (Resolved a, if Js.truthy key then trace call else []) /\
            (key = "" ->
             a = {| available := false; error := Some "API key not provided";
                    testedModel := None |}).
Proof.
  unfold keyed. destruct key as [|c key]; cbn.
  - eexists. split; reflexivity.
  - destruct (probe_resolves call model) as (a & -> & _).
    exists a. split; [reflexivity | discriminate].
Qed.

(** X9.  [testAllProviders] never fails and always reports the extractive
    summariser as available.  A provider whose API key is missing is
    reported as unavailable for that reason, and it is not contacted: with
    no key at all the only request is the one to Ollama. *)
Theorem testAllProviders_always_reports (env : Env) :
  exists status,
    outcome (SummaryService.getProvidersStatus env) = Resolved status /\
    extractiveStatus status =
      {| available := true; error := None; testedModel := Some "tf-idf" |} /\
    (cohereApiKey env = "" -> error (cohereStatus status) = Some "API key not provided") /\
    (huggingFaceApiKey env = "" ->
     error (huggingfaceStatus status) = Some "API key not provided") /\
    (openAIApiKey env = "" -> error (openaiStatus status) = Some "API key not provided") /\
    (cohereApiKey env = "" -> huggingFaceApiKey env = "" -> openAIApiKey env = "" ->
     trace (SummaryService.getProvidersStatus env) =
     [Post (ollamaBaseUrl env ++ "/api/generate") "llama2"]).
Proof.
  unfold SummaryService.getProvidersStatus, testAllProviders.
  destruct (probe_resolves
              (generateOllamaSummary env testContent (Config.withModel Config.empty "llama2"))
              "llama2") as (o & -> & _).
  destruct (keyed_resolves (cohereApiKey env)
              (generateCohereSummary env testContent Config.empty) "command-light")
    as (c & -> & Hc).
  destruct (keyed_resolves (huggingFaceApiKey env)
              (generateHuggingFaceSummary env testContent Config.empty)
              "sshleifer/distilbart-cnn-12-6") as (h & -> & Hh).
  destruct (keyed_resolves (openAIApiKey env)
              (generateOpenAISummary env testContent Config.empty) "gpt-3.5-turbo")
    as (a & -> & Ha).
  cbn. eexists. split; [reflexivity|]. cbn.
  split; [reflexivity|].
  split; [intros K; now rewrite (Hc K)|].
  split; [intros K; now rewrite (Hh K)|].
  split; [intros K; now rewrite (Ha K)|].
  intros K1 K2 K3. rewrite K1, K2, K3. cbn. rewrite !app_nil_r.
  apply (ollama_sends_one_request env testContent (Config.withModel Config.empty "llama2")).
Qed.

End StatusClaims.

(** ** Cleaning a summary *)
Section CleanFacts.
Import AISummaryService.

Lemma trimStart_length (s : string) : String.length (Js.trimStart s) <= String.length s.
Proof.
  induction s as [|c s IH]; simpl; [lia|]. destruct (Js.isWhiteSpace c); simpl; lia.
Qed.

Lemma trimEnd_length (s : string) : String.length (Js.trimEnd s) <= String.length s.
Proof.
  induction s as [|c s IH]; simpl; [lia|].
  destruct (Js.trimEnd s); [destruct (Js.isWhiteSpace c)|]; simpl in *; lia.
Qed.

Lemma drop_length (n : nat) (s : string) : String.length (Js.drop n s) <= String.length s.
Proof.
  revert s. induction n as [|n IH]; intros [|c s]; simpl; try lia.
  specialize (IH s). lia.
Qed.

Lemma afterBracket_length (s rest : string) :
  afterBracket s = Some rest -> String.length rest < String.length s.
Proof.
  revert rest. induction s as [|c s IH]; simpl; intros rest H; [discriminate|].
  destruct (Ascii.eqb c "]"); [inversion H; subst; lia|].
  destruct (Js.isLineTerminator c); [discriminate|].
  apply IH in H. lia.
Qed.

Lemma stripBracketPrefix_length (s : string) :
  String.length (stripBracketPrefix s) <= String.length s.
Proof.
  unfold stripBracketPrefix. destruct s as [|c s]; [lia|].
  destruct (Ascii.eqb c "["); [|lia].
  destruct (afterBracket s) as [rest|] eqn:E; [|lia].
  apply afterBracket_length in E. pose proof (trimStart_length rest). simpl. lia.
Qed.

Lemma stripSummaryLabel_length (s : string) :
  String.length (stripSummaryLabel s) <= String.length s.
Proof.
  unfold stripSummaryLabel. destruct (String.prefix _ _); [|lia].
  pose proof (trimStart_length (Js.drop 7 s)). pose proof (drop_length 7 s). lia.
Qed.

Lemma collapseWhiteSpace_length (inRun : bool) (s : string) :
  String.length (collapseWhiteSpace inRun s) <= String.length s.
Proof.
  revert inRun. induction s as [|c s IH]; intros inRun; simpl; [lia|].
  destruct (Js.isWhiteSpace c); [destruct inRun|]; simpl;
    match goal with |- context [collapseWhiteSpace ?b s] => specialize (IH b) end; lia.
Qed.

Lemma stripTrailingQuote_length (s : string) :
  String.length (stripTrailingQuote s) <= String.length s.
Proof.
  induction s as [|c s IH]; simpl; [lia|].
  destruct s; [destruct (Js.isQuote c); simpl; lia|]. simpl in *. lia.
Qed.

Lemma stripQuotes_length (s : string) :
  String.length (stripQuotes s) <= String.length s.
Proof.
  unfold stripQuotes, stripLeadingQuote.
  destruct s as [|c s]; [simpl; lia|].
  destruct (Js.isQuote c).
  - pose proof (stripTrailingQuote_length s). simpl. lia.
  - apply stripTrailingQuote_length.
Qed.

Lemma cleanSummary_length (s : string) :
  String.length (cleanSummary s) <= String.length s.
Proof.
  unfold cleanSummary, Js.trim.
  etransitivity; [apply trimEnd_length|].
  etransitivity; [apply trimStart_length|].
  etransitivity; [apply stripQuotes_length|].
  etransitivity; [apply collapseWhiteSpace_length|].
  etransitivity; [apply stripSummaryLabel_length|].
  apply stripBracketPrefix_length.
Qed.

Lemma singleSpaced_tail (c : ascii) (s : string) :
  singleSpaced (String c s) -> singleSpaced s.
Proof. simpl. tauto. Qed.

Lemma collapseWhiteSpace_spaced (inRun : bool) (s : string) :
  singleSpaced (collapseWhiteSpace inRun s) /\
  (inRun = true -> startsClean (collapseWhiteSpace inRun s)).
Proof.
  revert inRun. induction s as [|c s IH]; intros inRun; simpl; [tauto|].
  destruct (Js.isWhiteSpace c) eqn:W.
  - destruct inRun.
    + apply IH.
    + destruct (IH true) as [H1 H2]. split; [|discriminate].
      simpl. split; [|exact H1]. intros _. split; [reflexivity|].
      now apply H2.
  - destruct (IH false) as [H1 _]. split.
    + simpl. split; [|exact H1]. intros H. fold (Js.isWhiteSpace c) in H. congruence.
    + intros _. exact W.
Qed.

Lemma stripTrailingQuote_head (c : ascii) (s : string) :
  stripTrailingQuote (String c s) = EmptyString \/
  exists t, stripTrailingQuote (String c s) = String c t.
Proof.
  simpl. destruct s; [destruct (Js.isQuote c)|]; eauto.
Qed.

Lemma stripTrailingQuote_spaced (s : string) :
  singleSpaced s -> singleSpaced (stripTrailingQuote s).
Proof.
  induction s as [|c s IH]; [tauto|].
  intros [Hc Hs]. cbn [stripTrailingQuote].
  destruct s as [|d s']; [destruct (Js.isQuote c); simpl; tauto|].
  specialize (IH Hs). cbn [singleSpaced]. split; [|exact IH].
  intros W. destruct (Hc W) as [E Hd]. split; [exact E|].
  destruct (stripTrailingQuote_head d s') as [->|[t ->]]; [exact I | exact Hd].
Qed.

Lemma trimStart_spaced (s : string) : singleSpaced s -> singleSpaced (Js.trimStart s).
Proof.
  induction s as [|c s IH]; [tauto|]. intros H. simpl.
  destruct (Js.isWhiteSpace c); [apply IH, (singleSpaced_tail c), H | exact H].
Qed.

Lemma trimStart_clean (s : string) : startsClean (Js.trimStart s).
Proof.
  induction s as [|c s IH]; simpl; [exact I|].
  destruct (Js.isWhiteSpace c) eqn:W; [exact IH | exact W].
Qed.

Lemma trimEnd_head (c : ascii) (s : string) :
  Js.trimEnd (String c s) = EmptyString \/
  exists t, Js.trimEnd (String c s) = String c t.
Proof.
  simpl. destruct (Js.trimEnd s); [destruct (Js.isWhiteSpace c)|]; eauto.
Qed.

Lemma trimEnd_spaced (s : string) : singleSpaced s -> singleSpaced (Js.trimEnd s).
Proof.
  induction s as [|c s IH]; [tauto|].
  intros [Hc Hs]. specialize (IH Hs). cbn [Js.trimEnd].
  destruct (Js.trimEnd s) as [|e t] eqn:E.
  - destruct (Js.isWhiteSpace c) eqn:W; simpl; [tauto|].
    split; [|exact I]. intros W'. fold (Js.isWhiteSpace c) in W'. congruence.
  - cbn [singleSpaced]. split; [|exact IH].
    intros W. destruct (Hc W) as [Ec Hd]. split; [exact Ec|].
    destruct s as [|d s']; [discriminate|].
    destruct (trimEnd_head d s') as [H|[u H]]; rewrite H in E; [discriminate|].
    inversion E; subst. exact Hd.
Qed.

Lemma trimEnd_idempotent (s : string) : Js.trimEnd (Js.trimEnd s) = Js.trimEnd s.
Proof.
  induction s as [|c s IH]; [reflexivity|]. cbn [Js.trimEnd].
  destruct (Js.trimEnd s) as [|e t] eqn:E.
  - destruct (Js.isWhiteSpace c) eqn:W; [reflexivity|]. simpl. now rewrite W.
  - remember (String e t) as u eqn:Eu. simpl. rewrite IH. subst u. reflexivity.
Qed.

Lemma trimStart_of_clean (s : string) : startsClean s -> Js.trimStart s = s.
Proof. destruct s as [|c s]; simpl; [reflexivity|]. now intros ->. Qed.

Lemma trimEnd_clean (s : string) : startsClean s -> startsClean (Js.trimEnd s).
Proof.
  destruct s as [|c s]; [tauto|]. intros H.
  destruct (trimEnd_head c s) as [->|[t ->]]; [exact I | exact H].
Qed.

Lemma trim_idempotent (s : string) : Js.trim (Js.trim s) = Js.trim s.
Proof.
  unfold Js.trim.
  rewrite (trimStart_of_clean (Js.trimEnd (Js.trimStart s)))
    by apply trimEnd_clean, trimStart_clean.
  apply trimEnd_idempotent.
Qed.

(** X10.  A cleaned summary is tidy: trimming it again changes nothing, every
    white-space character in it is a plain space with no neighbour of its
    kind, and it is never longer than the text it was made from. *)
Theorem cleanSummary_is_tidy (summary : string) :
  Js.trim (cleanSummary summary) = cleanSummary summary /\
  singleSpaced (cleanSummary summary) /\
  String.length (cleanSummary summary) <= String.length summary.
Proof.
  split; [apply trim_idempotent|]. split; [|apply cleanSummary_length].
  unfold cleanSummary, Js.trim, stripQuotes.
  apply trimEnd_spaced, trimStart_spaced, stripTrailingQuote_spaced.
  set (collapsed := collapseWhiteSpace false _).
  assert (singleSpaced collapsed) as H by apply collapseWhiteSpace_spaced.
  unfold stripLeadingQuote. destruct collapsed as [|c t]; [exact I|].
  destruct (Js.isQuote c); [apply (singleSpaced_tail c), H | exact H].
Qed.

End CleanFacts.

(** ** Grouping *)
Section GroupFacts.
Context {K : Type} (eqb : K -> K -> bool).
Hypothesis eqb_spec : forall a b, reflect (a = b) (eqb a b).

Lemma distinct_In (k : K) (l : list K) : In k (Mongo.distinct eqb l) <-> In k l.
Proof.
  induction l as [|x l IH]; simpl; [tauto|].
  rewrite filter_In, IH.
  destruct (eqb_spec k x) as [->|Hne]; simpl; [tauto|].
  split; [intros [H|[H _]]; auto | intros [H|H]; [now left | right; auto]].
Qed.

Lemma distinct_NoDup (l : list K) : NoDup (Mongo.distinct eqb l).
Proof.
  induction l as [|x l IH]; simpl; constructor.
  - rewrite filter_In. intros [_ H]. destruct (eqb_spec x x); [discriminate | congruence].
  - now apply NoDup_filter.
Qed.

Lemma filter_others (k : K) (l : list K) :
  ~ In k l -> filter (fun k' => negb (eqb k' k)) l = l.
Proof.
  induction l as [|x l IH]; simpl; [reflexivity|]. intros H.
  destruct (eqb_spec x k) as [->|_]; simpl; [tauto|].
  f_equal. apply IH. tauto.
Qed.

Lemma sum_split (g : K -> nat) (k : K) (l : list K) :
  NoDup l -> (~ In k l -> g k = 0) ->
  list_sum (map g l) = g k + list_sum (map g (filter (fun k' => negb (eqb k' k)) l)).
Proof.
  induction 1 as [|x l Hx Hnd IH]; simpl; intros Hz; [rewrite Hz; tauto|].
  destruct (eqb_spec x k) as [->|Hne]; simpl.
  - now rewrite filter_others.
  - rewrite IH; [lia|]. intros Hk. apply Hz. intros [E|H]; [congruence | tauto].
Qed.

Context {A : Type} (key : A -> K) (w : K -> nat).

Lemma sumCond_absent (k : K) (l : list A) :
  ~ In k (map key l) -> Mongo.sumCond (fun i => eqb (key i) k) l = 0.
Proof.
  unfold Mongo.sumCond. induction l as [|i l IH]; simpl; [reflexivity|].
  intros H. destruct (eqb_spec (key i) k) as [E|_]; [tauto|]. apply IH. tauto.
Qed.

Lemma sumCond_cons (k : K) (i : A) (l : list A) :
  Mongo.sumCond (fun j => eqb (key j) k) (i :: l)
  = (if eqb (key i) k then 1 else 0) + Mongo.sumCond (fun j => eqb (key j) k) l.
Proof. unfold Mongo.sumCond. simpl. destruct (eqb (key i) k); reflexivity. Qed.

Lemma grouped_sum (l : list A) :
  list_sum (map (fun k => Mongo.sumCond (fun i => eqb (key i) k) l * w k)
                (Mongo.distinct eqb (map key l)))
  = list_sum (map (fun i => w (key i)) l).
Proof.
  induction l as [|i l IH]; [reflexivity|].
  change (list_sum (map (fun j => w (key j)) (i :: l)))
    with (w (key i) + list_sum (map (fun j => w (key j)) l)).
  rewrite <- IH.
  rewrite (sum_split (fun k => Mongo.sumCond (fun j => eqb (key j) k) l * w k) (key i)
             (Mongo.distinct eqb (map key l))).
  - change (Mongo.distinct eqb (map key (i :: l)))
      with (key i :: filter (fun k' => negb (eqb k' (key i)))
                            (Mongo.distinct eqb (map key l))).
    cbn [map list_sum]. rewrite sumCond_cons.
    destruct (eqb_spec (key i) (key i)) as [_|H]; [|congruence].
    assert (map (fun k => Mongo.sumCond (fun j => eqb (key j) k) (i :: l) * w k)
              (filter (fun k' => negb (eqb k' (key i))) (Mongo.distinct eqb (map key l)))
            = map (fun k => Mongo.sumCond (fun j => eqb (key j) k) l * w k)
                (filter (fun k' => negb (eqb k' (key i))) (Mongo.distinct eqb (map key l))))
      as ->.
    { apply map_ext_in. intros k Hk. apply filter_In in Hk as [_ Hk].
      rewrite sumCond_cons.
      destruct (eqb_spec (key i) k) as [E|_]; [|reflexivity].
      rewrite E in Hk. destruct (eqb_spec k k); [discriminate | congruence]. }
    unfold list_sum. cbn [fold_right]. lia.
  - apply distinct_NoDup.
  - intros H. rewrite sumCond_absent; [reflexivity|]. now rewrite <- distinct_In.
Qed.

Lemma fold_sum (l : list (K * nat)) (a : nat) :
  fold_left (fun total '(k, c) => total + c * w k) l a
  = a + list_sum (map (fun '(k, c) => c * w k) l).
Proof.
  revert a. induction l as [|[k c] l IH]; intros a; simpl; [lia|].
  rewrite IH. lia.
Qed.

End GroupFacts.

(** ** Popularity *)
Section PopularityClaims.
Import RecommendationService.

Lemma InteractionType_eqb_spec (a b : InteractionType) :
  reflect (a = b) (InteractionType_eqb a b).
Proof. destruct a, b; simpl; constructor; congruence. Qed.

Lemma totalScore_weighted (store : Store) (articleId : ObjectId) :
  totalScore (interactionCounts store articleId)
  = list_sum (map (fun i => weights (Interaction.interactionType i))
                  (interactionsOf store articleId)).
Proof.
  unfold totalScore, interactionCounts. fold (interactionsOf store articleId).
  rewrite (fold_sum weights), map_map. simpl.
  apply (grouped_sum InteractionType_eqb InteractionType_eqb_spec
           Interaction.interactionType weights).
Qed.

Lemma weights_by_type (l : list Interaction.t) :
  list_sum (map (fun i => weights (Interaction.interactionType i)) l)
  = Mongo.sumCond (InteractionSchema.hasType view) l
    + 3 * Mongo.sumCond (InteractionSchema.hasType like) l
    + 5 * Mongo.sumCond (InteractionSchema.hasType share) l
    + 4 * Mongo.sumCond (InteractionSchema.hasType comment) l.
Proof.
  unfold Mongo.sumCond, InteractionSchema.hasType.
  induction l as [|i l IH]; [reflexivity|].
  cbn [map list_sum filter]. unfold list_sum in *. cbn [fold_right]. rewrite IH.
  destruct (Interaction.interactionType i); simpl; lia.
Qed.

(** X11.  The popularity of an article counts every interaction stored for it
    with the weight of its type: one hundredth of views + 3 likes + 5 shares
    + 4 comments, capped at 1. *)
Theorem popularity_weighs_every_interaction (store : Store) (articleId : ObjectId) :
  let count type := Mongo.sumCond (InteractionSchema.hasType type)
                                  (interactionsOf store articleId) in
  calculatePopularityScore store articleId =
  Js.min (Qnat (count view + 3 * count like + 5 * count share + 4 * count comment) / 100) 1.
Proof.
  intros count. unfold calculatePopularityScore.
  now rewrite totalScore_weighted, weights_by_type.
Qed.

Lemma min_monotone (a b c : Q) : (a <= b -> Js.min a c <= Js.min b c)%Q.
Proof.
  intros H.
  destruct (min_spec a c) as [[H1 ->]|[H1 ->]], (min_spec b c) as [[H2 ->]|[H2 ->]]; lra.
Qed.

(** X12.  Saving one more interaction never lowers the popularity of any article,
    and leaves the popularity of every other article as it was. *)
Theorem saving_an_interaction_never_lowers_popularity
  (store : Store) (i : Interaction.t) (articleId : ObjectId) :
  (calculatePopularityScore store articleId
   <= calculatePopularityScore (saved store i) articleId)%Q /\
  (Interaction.articleId i <> articleId ->
   calculatePopularityScore (saved store i) articleId
   = calculatePopularityScore store articleId).
Proof.
  unfold calculatePopularityScore. rewrite !totalScore_weighted.
  unfold interactionsOf, saved. cbn [interactions]. rewrite filter_app. cbn [filter].
  destruct (Nat.eqb_spec (Interaction.articleId i) articleId) as [E|E].
  - split; [|congruence]. apply min_monotone.
    rewrite map_app, list_sum_app.
    apply Qmult_le_compat_r; [|discriminate].
    apply Qnat_le. lia.
  - rewrite app_nil_r. split; [apply Qle_refl | reflexivity].
Qed.

End PopularityClaims.

(** ** Freshness *)
Section FreshnessClaims.
Import RecommendationService.

Lemma days_le (age k : Z) :
  Qle_bool (inject_Z age / inject_Z msPerDay) (inject_Z k) = (age <=? k * 86400000)%Z.
Proof.
  apply eq_true_iff_eq. rewrite Qle_bool_iff, Z.leb_le.
  change msPerDay with 86400000%Z.
  unfold Qle, Qdiv, Qmult, Qinv, inject_Z. simpl. lia.
Qed.

(** X13.  Freshness is a step function of the age in milliseconds, with steps at
    1, 7, 30 and 90 days, each bound included; an article is never fresher
    than one created later, and one dated in the future is fully fresh. *)
Theorem freshness_steps_down_with_age (now createdAt : Z) :
  let age := (now - createdAt)%Z in
  calculateFreshnessScore now createdAt =
    (if (age <=? 86400000)%Z then 1%Q
     else if (age <=? 604800000)%Z then (9 # 10)%Q
     else if (age <=? 2592000000)%Z then (7 # 10)%Q
     else if (age <=? 7776000000)%Z then (4 # 10)%Q
     else (2 # 10)%Q) /\
  (forall later, (createdAt <= later)%Z ->
     (calculateFreshnessScore now createdAt <= calculateFreshnessScore now later)%Q) /\
  ((now <= createdAt)%Z -> calculateFreshnessScore now createdAt = 1%Q).
Proof.
  intros age.
  assert (forall c, calculateFreshnessScore now c =
            (if (now - c <=? 86400000)%Z then 1%Q
             else if (now - c <=? 604800000)%Z then (9 # 10)%Q
             else if (now - c <=? 2592000000)%Z then (7 # 10)%Q
             else if (now - c <=? 7776000000)%Z then (4 # 10)%Q
             else (2 # 10)%Q)) as Steps.
  { intros c. unfold calculateFreshnessScore.
    change 1%Q with (inject_Z 1) at 1. change 7%Q with (inject_Z 7).
    change 30%Q with (inject_Z 30). change 90%Q with (inject_Z 90).
    rewrite !days_le. reflexivity. }
  split; [apply Steps|]. split.
  - intros later Hl. rewrite !Steps.
    repeat match goal with
           | |- context [(?a <=? ?b)%Z] => destruct (Z.leb_spec a b)
           end; try lia; unfold Qle; simpl; lia.
  - intros Hf. rewrite Steps. destruct (Z.leb_spec (now - createdAt) 86400000); [reflexivity | lia].
Qed.

End FreshnessClaims.

(** ** Recommendations *)
Section RecommendationMore.
Import Async RecommendationService.

Lemma firstn_sorted {A} (R : A -> A -> Prop) (n : nat) (l : list A) :
  StronglySorted R l -> StronglySorted R (firstn n l).
Proof.
  intros H. revert n. induction H as [|x l Hl IH Hx]; intros [|n]; simpl;
    try constructor.
  - apply IH.
  - apply Forall_forall. intros y Hy. apply firstn_incl in Hy.
    now apply (proj1 (Forall_forall _ _) Hx).
Qed.

Lemma slice0_sorted {A} (R : A -> A -> Prop) (n : Z) (l : list A) :
  StronglySorted R l -> StronglySorted R (Js.slice0 n l).
Proof. unfold Js.slice0. destruct (0 <=? n)%Z; apply firstn_sorted. Qed.

Lemma byScoreDesc_le (a b : RecommendationScore) :
  Qle_bool (byScoreDesc a b) 0 = true -> (score b <= score a)%Q.
Proof. unfold byScoreDesc. rewrite Qle_bool_iff. lra. Qed.

Lemma byScoreDesc_gt (a b : RecommendationScore) :
  Qle_bool (byScoreDesc a b) 0 = false -> (score a <= score b)%Q.
Proof.
  unfold byScoreDesc. intros H.
  destruct (Qlt_le_dec (score b) (score a)) as [Hlt|Hle]; [|exact Hle].
  assert (Qle_bool (score b - score a) 0 = true) as E by (apply Qle_bool_iff; lra).
  congruence.
Qed.

Lemma score_bounds (store : Store) (now : Z) (user : User.t) (article : Article.t) :
  (0 <= score (calculateRecommendationScore store now user article) <= 1)%Q.
Proof.
  unfold calculateRecommendationScore. cbn [score].
  pose proof (calculateInterestScore_bounds (User.interests user)
                (Config.orDefault (Article.tags article) [])) as Hi.
  pose proof (calculatePopularityScore_bounds store (Article._id article)) as Hp.
  pose proof (calculateFreshnessScore_bounds now (Article.createdAt article)) as Hf.
  pose proof (calculateAuthorScore_bounds store (Article.author article)) as Ha.
  apply min_bounds; lra.
Qed.

(** X14.  The reasons of a recommendation are never empty, and the general
    reason is given exactly when it is the only one: when no interest
    matches, popularity and author signal are at most 0.7 and freshness at
    most 0.8. *)
Theorem reasons_are_never_empty
  (store : Store) (now : Z) (user : User.t) (article : Article.t) :
  let r := calculateRecommendationScore store now user article in
  let interest := calculateInterestScore (User.interests user)
                    (Config.orDefault (Article.tags article) []) in
  0 < List.length (reasons r) /\
  (In "General recommendation" (reasons r) <-> reasons r = ["General recommendation"]) /\
  (reasons r = ["General recommendation"] <->
   (interest <= 0)%Q /\
   (calculatePopularityScore store (Article._id article) <= 7 # 10)%Q /\
   (calculateFreshnessScore now (Article.createdAt article) <= 8 # 10)%Q /\
   (calculateAuthorScore store (Article.author article) <= 7 # 10)%Q).
Proof.
  intros r interest. unfold r, calculateRecommendationScore. cbn [reasons].
  fold interest. unfold Qgt_bool.
  generalize (Js.join ", " (getMatchingInterests (User.interests user)
                              (Config.orDefault (Article.tags article) []))).
  intros matching.
  destruct (Qle_bool interest 0) eqn:E1;
  destruct (Qle_bool (calculatePopularityScore store (Article._id article)) (7 # 10)) eqn:E2;
  destruct (Qle_bool (calculateFreshnessScore now (Article.createdAt article)) (8 # 10)) eqn:E3;
  destruct (Qle_bool (calculateAuthorScore store (Article.author article)) (7 # 10)) eqn:E4;
  cbn [negb app List.length Nat.eqb];
  repeat match goal with
         | H : Qle_bool _ _ = true |- _ => apply Qle_bool_iff in H
         | H : Qle_bool ?a ?b = false |- _ =>
             assert (~ (a <= b)%Q) by (rewrite <- Qle_bool_iff; congruence); clear H
         end;
  (split; [simpl; lia|]); split; split;
    simpl; try tauto; try discriminate; try (intuition (try discriminate; tauto)).
Qed.

End RecommendationMore.

Section RecommendationResults.
Import Async RecommendationService.

(** X15.  What [getRecommendations] returns: at most [limit] recommendations, in
    descending order of score, each for a stored article that the user has
    no interaction with, and each with a score between 0 and 1. *)
Theorem recommendations_are_ranked_and_new
  (store : Store) (now : Z) (userId : ObjectId) (limit : nat)
  (recommendations : list RecommendationScore) :
  getRecommendations store now userId limit = Resolved recommendations ->
  List.length recommendations <= limit /\
  StronglySorted (fun a b => (score b <= score a)%Q) recommendations /\
  Forall (fun r =>
            In (article r) (articles store) /\
            (forall i, In i (interactions store) ->
                       Interaction.userId i = userId ->
                       Interaction.articleId i <> Article._id (article r)) /\
            (0 <= score r <= 1)%Q) recommendations.
Proof.
  unfold getRecommendations.
  destruct (find _ (users store)) as [user|]; [|discriminate].
  set (interacted := map Interaction.articleId
                       (filter (fun i => Interaction.userId i =? userId) (interactions store))).
  set (candidates := Mongo.limit (limit * 2) _).
  assert (forall a, In a candidates ->
            In a (articles store) /\ ~ In (Article._id a) interacted) as Hc.
  { intros a Ha. unfold candidates, Mongo.limit in Ha.
    assert (In a (filter (fun a => negb (existsb (Nat.eqb (Article._id a)) interacted))
                         (articles store))) as Hf
      by (destruct (limit * 2 =? 0); [exact Ha | eapply firstn_incl, Ha]).
    apply filter_In in Hf as [Hin Hn]. split; [exact Hin|].
    intros Hi. apply negb_true_iff in Hn.
    assert (existsb (Nat.eqb (Article._id a)) interacted = true) as E
      by (apply existsb_exists; exists (Article._id a); split; [exact Hi | apply Nat.eqb_refl]).
    congruence. }
  destruct (List.length candidates =? 0).
  - intros H. inversion H; subst. simpl. repeat split; try constructor. lia.
  - intros H. inversion H; subst. clear H. repeat split.
    + unfold Js.slice0. destruct (Z.leb_spec 0 (Z.of_nat limit)); [|lia].
      rewrite Nat2Z.id. apply firstn_le_length.
    + apply slice0_sorted, sort_sorted.
      * intros x y z Hxy Hyz. lra.
      * apply byScoreDesc_le.
      * apply byScoreDesc_gt.
    + apply Forall_forall. intros r Hr.
      apply slice0_incl, sort_In, in_map_iff in Hr as (a & <- & Ha).
      destruct (Hc a Ha) as [Hin Hnew]. split; [exact Hin|]. split.
      * intros i Hi Hu E. apply Hnew. unfold interacted.
        apply in_map_iff. exists i. split; [exact E|].
        apply filter_In. split; [exact Hi | now apply Nat.eqb_eq].
      * apply score_bounds.
Qed.


End RecommendationResults.

Lemma recommendations_are_ranked_and_new_witness :
  exists recommendations,
    RecommendationService.getRecommendations Sample.store 10000%Z 7 1
      = Async.Resolved recommendations /\
    List.length recommendations <= 1 /\
    StronglySorted (fun a b => (RecommendationService.score b <= RecommendationService.score a)%Q)
                   recommendations /\
    Forall (fun r =>
              In (RecommendationService.article r) (articles Sample.store) /\
              (forall i, In i (interactions Sample.store) ->
                         Interaction.userId i = 7 ->
                         Interaction.articleId i <> Article._id (RecommendationService.article r)) /\
              (0 <= RecommendationService.score r <= 1)%Q) recommendations.
Proof.
  eexists. split; [vm_compute; reflexivity|].
  apply (recommendations_are_ranked_and_new Sample.store 10000%Z 7 1).
  vm_compute. reflexivity.
Defined.

(** ** The statics of the Interaction model *)
Section StaticsClaims.
Import Async InteractionSchema.

Lemma filter_idempotent {A} (p : A -> bool) (l : list A) :
  filter p (filter p l) = filter p l.
Proof.
  induction l as [|x l IH]; simpl; [reflexivity|].
  destruct (p x) eqn:E; simpl; [rewrite E; now f_equal | exact IH].
Qed.

(** X17.  Interactions older than the window have no influence on a trending
    list: the static with its window of [hours] hours and the service with
    its window of one day return what they return on the store without the
    older interactions. *)
Theorem trending_ignores_old_interactions
  (store : Store) (now hours : Z) (limit : nat) :
  getTrendingArticles store now hours limit
  = getTrendingArticles (within store (now - hours * 60 * 60 * 1000)) now hours limit /\
  RecommendationService.getTrendingArticles store now limit
  = RecommendationService.getTrendingArticles
      (within store (now - 24 * 60 * 60 * 1000)) now limit.
Proof.
  split.
  - unfold getTrendingArticles, trendingGroups, lookup, within. cbn [interactions articles].
    now rewrite filter_idempotent.
  - unfold RecommendationService.getTrendingArticles, RecommendationService.trendingGroups,
      within. cbn [interactions articles].
    now rewrite filter_idempotent.
Qed.

Lemma descending_le {A} (k1 k2 : A -> nat) (a b : A) :
  Qle_bool (Mongo.descending k1 k2 a b) 0 = true ->
  k1 b < k1 a \/ (k1 b = k1 a /\ k2 b <= k2 a).
Proof.
  unfold Mongo.descending. rewrite Qle_bool_iff.
  destruct (Nat.eqb_spec (k1 a) (k1 b)) as [E|E]; unfold Qle, Qnat; simpl; lia.
Qed.

Lemma descending_gt {A} (k1 k2 : A -> nat) (a b : A) :
  Qle_bool (Mongo.descending k1 k2 a b) 0 = false ->
  k1 a < k1 b \/ (k1 a = k1 b /\ k2 a <= k2 b).
Proof.
  intros H.
  assert (~ (Mongo.descending k1 k2 a b <= 0)%Q) as Hn
    by (rewrite <- Qle_bool_iff; congruence).
  unfold Mongo.descending in Hn.
  destruct (Nat.eqb_spec (k1 a) (k1 b)) as [E|E]; unfold Qle, Qnat in Hn; simpl in Hn; lia.
Qed.

Lemma trendingGroups_sorted (store : Store) (now hours : Z) :
  StronglySorted (fun g h => ranksBefore (stats g) (stats h))
                 (trendingGroups store now hours).
Proof.
  unfold trendingGroups. apply sort_sorted.
  - unfold ranksBefore. intros x y z. lia.
  - intros x y H. apply descending_le in H. exact H.
  - intros x y H. apply descending_gt in H. exact H.
Qed.

Lemma sorted_app {A} (R : A -> A -> Prop) (l1 l2 : list A) :
  StronglySorted R l1 -> StronglySorted R l2 ->
  (forall x y, In x l1 -> In y l2 -> R x y) ->
  StronglySorted R (l1 ++ l2).
Proof.
  induction 1 as [|x l1 H1 IH Hx]; intros H2 H; simpl; [exact H2|].
  constructor.
  - apply IH; [exact H2|]. intros a b Ha Hb. apply H; [now right | exact Hb].
  - apply Forall_app. split; [exact Hx|].
    apply Forall_forall. intros y Hy. apply H; [now left | exact Hy].
Qed.

Lemma related_sorted {A} (R : A -> A -> Prop) (l : list A) :
  (forall x y, In x l -> In y l -> R x y) -> StronglySorted R l.
Proof.
  induction l as [|x l IH]; intros H; constructor.
  - apply IH. intros a b Ha Hb. apply H; now right.
  - apply Forall_forall. intros y Hy. apply H; [now left | now right].
Qed.

Lemma lookup_stats (store : Store) (g : Group) (e : Trending) :
  In e (lookup store g) -> trendingStats e = stats g /\ In (article e) (articles store).
Proof.
  unfold lookup. rewrite in_map_iff. intros (a & <- & Ha).
  apply filter_In in Ha as [Ha _]. split; [reflexivity | exact Ha].
Qed.

Lemma flat_lookup_sorted (store : Store) (groups : list Group) :
  StronglySorted (fun g h => ranksBefore (stats g) (stats h)) groups ->
  StronglySorted (fun a b => ranksBefore (trendingStats a) (trendingStats b))
                 (flat_map (lookup store) groups).
Proof.
  induction 1 as [|g groups Hs IH Hg]; simpl; [constructor|].
  apply sorted_app; [|exact IH|].
  - apply related_sorted. intros x y Hx Hy.
    apply lookup_stats in Hx as [-> _]. apply lookup_stats in Hy as [-> _].
    unfold ranksBefore. lia.
  - intros x y Hx Hy. apply in_flat_map in Hy as (h & Hh & Hy).
    apply lookup_stats in Hx as [-> _]. apply lookup_stats in Hy as [-> _].
    now apply (proj1 (Forall_forall _ _) Hg).
Qed.

Lemma statsOf_totals (members : list Interaction.t) :
  totalInteractions (statsOf members)
  = views (statsOf members) + likes (statsOf members)
    + shares (statsOf members) + comments (statsOf members).
Proof.
  unfold statsOf, Mongo.sumCond, hasType. cbn [totalInteractions views likes shares comments].
  induction members as [|i l IH]; [reflexivity|].
  cbn [filter List.length]. destruct (Interaction.interactionType i); simpl; lia.
Qed.

Lemma trendingGroups_populated (store : Store) (now hours : Z) (g : Group) :
  In g (trendingGroups store now hours) ->
  exists members, stats g = statsOf members /\ 0 < List.length members.
Proof.
  unfold trendingGroups. rewrite sort_In, in_map_iff. intros (id & <- & Hid).
  eexists. split; [reflexivity|].
  apply (proj1 (distinct_In Nat.eqb Nat.eqb_spec _ _)) in Hid.
  apply in_map_iff in Hid as (i & Hi & Hin).
  assert (In i (filter (fun j => Interaction.articleId j =? id)
                 (filter (fun j => (now - hours * 60 * 60 * 1000 <=? Interaction.createdAt j)%Z)
                         (interactions store)))) as H
    by (apply filter_In; split; [exact Hin | now apply Nat.eqb_eq]).
  destruct (filter _ (filter _ (interactions store))); [destruct H | simpl; lia].
Qed.

(** X18.  The static [getTrendingArticles] lists its entries by engagement, more
    first, and among equal engagement by the number of interactions, more
    first.  The engagement of an entry is views + 3 likes + 5 shares
    + 4 comments, its four counts add up to its number of interactions,
    which is not zero, and its article is a stored one. *)
Theorem static_trending_is_ranked_by_engagement
  (store : Store) (now hours : Z) (limit : nat) (entries : list Trending) :
  getTrendingArticles store now hours limit = Resolved entries ->
  StronglySorted (fun a b => ranksBefore (trendingStats a) (trendingStats b)) entries /\
  Forall (fun e =>
            let s := trendingStats e in
            engagementScore s = views s + 3 * likes s + 5 * shares s + 4 * comments s /\
            totalInteractions s = views s + likes s + shares s + comments s /\
            0 < totalInteractions s /\
            In (article e) (articles store)) entries.
Proof.
  unfold getTrendingArticles. destruct (limit =? 0); [discriminate|].
  intros H. inversion H; subst. clear H. split.
  - apply flat_lookup_sorted, firstn_sorted, trendingGroups_sorted.
  - apply Forall_forall. intros e He.
    apply in_flat_map in He as (g & Hg & He).
    apply firstn_incl in Hg. apply lookup_stats in He as [-> Ha].
    apply trendingGroups_populated in Hg as (members & -> & Hpos).
    cbv zeta. rewrite statsOf_totals. split; [|split; [reflexivity|split; [|exact Ha]]].
    + unfold statsOf. cbn [engagementScore views likes shares comments]. lia.
    + rewrite <- statsOf_totals. exact Hpos.
Qed.

(** X19.  The statistics of an article list every interaction type that occurs
    for it once, each with a count that is not zero, and the counts add up
    to the number of interactions stored for the article. *)
Theorem article_stats_partition_the_interactions (store : Store) (articleId : ObjectId) :
  let stats := getArticleStats store articleId in
  NoDup (map fst stats) /\
  Forall (fun entry =>
            0 < snd entry /\
            snd entry = Mongo.sumCond (hasType (fst entry)) (interactionsOf store articleId))
         stats /\
  list_sum (map snd stats) = List.length (interactionsOf store articleId).
Proof.
  intros stats. unfold stats, getArticleStats. fold (interactionsOf store articleId).
  set (matched := interactionsOf store articleId).
  rewrite !map_map. cbn [fst snd]. rewrite map_id. split; [|split].
  - apply (distinct_NoDup InteractionType_eqb InteractionType_eqb_spec).
  - apply Forall_map, Forall_forall. intros type Ht. cbn [fst snd]. split; [|reflexivity].
    apply (proj1 (distinct_In InteractionType_eqb InteractionType_eqb_spec _ _)) in Ht.
    apply in_map_iff in Ht as (i & Hi & Hin).
    unfold Mongo.sumCond.
    assert (In i (filter (hasType type) matched)) as H
      by (apply filter_In; split; [exact Hin|]; unfold hasType; rewrite Hi;
          destruct type; reflexivity).
    destruct (filter (hasType type) matched); [destruct H | simpl; lia].
  - pose proof (grouped_sum InteractionType_eqb InteractionType_eqb_spec
                  Interaction.interactionType (fun _ => 1) matched) as H.
    rewrite (map_ext (fun k => Mongo.sumCond
                                 (fun i => InteractionType_eqb (Interaction.interactionType i) k)
                                 matched * 1)
                     (fun k => Mongo.sumCond (hasType k) matched)) in H
      by (intros k; unfold hasType; lia).
    rewrite H. clear. induction matched as [|i l IH]; simpl; [reflexivity | now rewrite IH].
Qed.

End StaticsClaims.

Lemma static_trending_is_ranked_by_engagement_witness :
  exists entries,
    InteractionSchema.getTrendingArticles Sample.store 10000%Z 24%Z 2
      = Async.Resolved entries /\
    List.length entries = 2 /\
    StronglySorted (fun a b => ranksBefore (InteractionSchema.trendingStats a)
                                           (InteractionSchema.trendingStats b)) entries /\
    Forall (fun e =>
              let s := InteractionSchema.trendingStats e in
              InteractionSchema.engagementScore s
                = InteractionSchema.views s + 3 * InteractionSchema.likes s
                  + 5 * InteractionSchema.shares s + 4 * InteractionSchema.comments s /\
              InteractionSchema.totalInteractions s
                = InteractionSchema.views s + InteractionSchema.likes s
                  + InteractionSchema.shares s + InteractionSchema.comments s /\
              0 < InteractionSchema.totalInteractions s /\
              In (InteractionSchema.article e) (articles Sample.store)) entries.
Proof.
  eexists. split; [vm_compute; reflexivity|]. split; [reflexivity|].
  apply (static_trending_is_ranked_by_engagement Sample.store 10000%Z 24%Z 2).
  vm_compute. reflexivity.
Defined.

(** ** Interests and the trending list of the service *)
Section InterestClaims.
Import Async RecommendationService.

(** X20.  The interest score is the share of the user's interests that match a
    tag, an interest matching a tag when one contains the other; it is zero
    exactly when no interest matches, and the interests counted are the ones
    the reason lists. *)
Theorem interest_score_counts_matching_interests (userInterests articleTags : list string) :
  let matching := getMatchingInterests userInterests articleTags in
  (calculateInterestScore userInterests articleTags * Qnat (List.length userInterests)
   == Qnat (List.length matching))%Q /\
  ((calculateInterestScore userInterests articleTags == 0)%Q <-> matching = []) /\
  (forall interest, In interest matching <->
     In interest userInterests /\
     exists tag, In tag articleTags /\
                 (Js.includes tag interest = true \/ Js.includes interest tag = true)).
Proof.
  intros matching.
  assert (articleTags = [] -> matching = []) as Hnotags.
  { intros ->. unfold matching, getMatchingInterests, matches. simpl.
    induction userInterests; [reflexivity | assumption]. }
  assert (calculateInterestScore userInterests articleTags * Qnat (List.length userInterests)
          == Qnat (List.length matching))%Q as E.
  { unfold calculateInterestScore. fold (getMatchingInterests userInterests articleTags).
    fold matching.
    destruct userInterests as [|u us]; [reflexivity|].
    destruct articleTags as [|t ts]; [rewrite Hnotags by reflexivity; reflexivity|].
    cbn [List.length Nat.eqb orb].
    assert (0 < Qnat (S (List.length us)))%Q as Hp by (apply Qnat_pos; lia).
    field. lra. }
  split; [exact E|]. split.
  - split.
    + intros Hz. rewrite Hz in E.
      destruct matching; [reflexivity|]. exfalso.
      pose proof (Qnat_pos (List.length (s :: matching))) as Hp.
      simpl in Hp. assert (0 < Qnat (S (List.length matching)))%Q by (apply Hp; lia).
      simpl in E. lra.
    + intros Hm. rewrite Hm in E. change (Qnat (List.length [])) with 0%Q in E.
      destruct userInterests as [|u us]; [reflexivity|].
      pose proof (Qnat_pos (List.length (u :: us))) as Hp.
      assert (0 < Qnat (List.length (u :: us)))%Q by (apply Hp; simpl; lia).
      apply Qmult_integral in E. destruct E as [E|E]; [exact E | lra].
  - intros interest. unfold matching, getMatchingInterests, matches.
    rewrite filter_In, existsb_exists.
    split; intros [H (tag & Ht & Hm)]; (split; [exact H|]); exists tag; (split; [exact Ht|]).
    + now apply orb_true_iff.
    + now apply orb_true_iff.
Qed.



End InterestClaims.
